(** * FreshLink: fee calculation, checkout and product search

  A shallow embedding of [server/routes.ts] and [server/storage.ts].

  - [JS]: the fragment of JavaScript the routes rely on: numbers are
    IEEE-754 binary64 values, [Number.prototype.toFixed], truthiness,
    property lookup through [Object.prototype], [+] and [*] on values
    that are not numbers, exceptions.
  - [Fees]: [calculateFees] and [POST /api/orders/calculate-fees].
  - [Storage]: the tables of [shared/schema.ts] as lists of rows, and the
    queries of [DatabaseStorage] on the cart and the orders.  Requests run
    one after another.
  - [Checkout]: [POST /api/orders].  An awaited storage call either
    applies its statement or rejects and changes nothing.
  - [Search]: [searchProducts] and [GET /api/products/search].  The
    operators the query leaves to PostgreSQL (the PostGIS distance, ILIKE)
    are parameters; two simple stand-ins run the query on examples.
  - [Sample]: a small database.
  - [Payments]: [POST /api/create-payment-intent] up to the call of Stripe.
  - [Producers]: [getProducersNearLocation] and [GET /api/producers/nearby].
  - [Orders]: [getOrder], [getOrdersByUser], [getOrdersByProducer],
    [updateOrderStatus], [GET /api/orders] and [GET /api/orders/:id].
  - [CartRoutes]: [PATCH /api/cart/:id] and [DELETE /api/cart/:id].
  - [Products]: [createProduct], [getProduct] and [GET /api/products/:id].
  - [Dashboard]: the tag toggle of the product form.

  The properties follow, by component. *)

From Stdlib Require Import ZArith List Ascii String Bool Lia Floats.
From Stdlib Require Import Sorting.Sorted Sorting.Permutation.
Import ListNotations.

#[local] Set Warnings "-inexact-float".
#[local] Open Scope string_scope.
#[local] Open Scope list_scope.

(* ------------------------------------------------------------------ *)
(** ** JavaScript values *)

Module JS.

(** A JavaScript number. *)
Definition number : Type := float.
Bind Scope float_scope with number.

(** The values that reach the fee arithmetic.  [Str] stands for a string
    that is not a numeric literal (the only strings built there are a
    number printed in front of the source text of a function or of
    ["[object Object]"]); [Obj] for a function or object inherited from
    [Object.prototype]. *)
Inductive value : Type :=
| Undefined
| Num (x : number)
| Str
| Obj.

(** Exceptions and the result of evaluating a block. *)
Inductive exn : Type :=
| TypeError (message : string)
| Error (message : string).

Definition message (e : exn) : string :=
  match e with TypeError m | Error m => m end.

Inductive completion (A : Type) : Type :=
| Return (a : A)
| Throw (e : exn).
Arguments Return {A} a.
Arguments Throw {A} e.

Definition bind {A B} (c : completion A) (k : A -> completion B) : completion B :=
  match c with
  | Return a => k a
  | Throw e => Throw e
  end.

(** The result of a block under a function of the value returned. *)
Definition fmap {A B} (f : A -> B) (c : completion A) : completion B :=
  match c with
  | Return a => Return (f a)
  | Throw e => Throw e
  end.

(** ToBoolean on numbers: [0], [-0] and [NaN] are falsy. *)
Definition truthy_number (x : number) : bool :=
  negb (PrimFloat.is_zero x || PrimFloat.is_nan x).

Definition truthy (v : value) : bool :=
  match v with
  | Undefined => false
  | Num x => truthy_number x
  | Str => true   (* never the empty string *)
  | Obj => true
  end.

(** [a || b] *)
Definition or_else (a b : value) : value := if truthy a then a else b.

(** ToNumber: [undefined], a string that is not a numeric literal, and an
    object whose primitive is such a string, convert to [NaN]. *)
Definition ToNumber (v : value) : number :=
  match v with
  | Num x => x
  | _ => PrimFloat.nan
  end.

(** [a + b]: concatenation as soon as one operand is a string or an object
    (whose primitive is a string), addition of numbers otherwise. *)
Definition add (a b : value) : value :=
  match a, b with
  | Str, _ | Obj, _ | _, Str | _, Obj => Str
  | _, _ => Num (ToNumber a + ToNumber b)%float
  end.

(** [a * b] *)
Definition mul (a b : value) : value :=
  Num (ToNumber a * ToNumber b)%float.

(** *** [Number.prototype.toFixed(2)] followed by [Number(...)] *)

(** The integer [n] for which [n / 100 - m * 2^e] is as close to zero as
    possible, the larger one when there are two. *)
Definition nearest_hundredths (m : positive) (e : Z) : Z :=
  if (0 <=? e)%Z then 100 * Z.pos m * 2 ^ e
  else (200 * Z.pos m + 2 ^ (- e)) / 2 ^ (1 - e).

(** The binary64 value nearest to [n / 100] (ties to even), with sign [s]:
    what [Number] gives on the decimal string [toFixed] prints. *)
Definition of_hundredths (s : bool) (n : Z) : number :=
  match n with
  | Z.pos p =>
      SF2Prim (SFdiv prec emax (S754_finite s p 0) (S754_finite false 100 0))
  | _ => SF2Prim (S754_zero s)
  end.

(** [Number(x.toFixed(2))].  A value that is not finite prints as itself;
    [-0] prints as ["0.00"]; a negative [x] prints ["-"] in front of the
    digits of [-x].  From [1e21] on [toFixed] prints the number itself,
    which the formula below gives too, [x] being an integer there. *)
Definition toFixed2 (x : number) : number :=
  match Prim2SF x with
  | S754_finite s m e => of_hundredths s (nearest_hundredths m e)
  | S754_zero _ => PrimFloat.zero
  | S754_infinity _ | S754_nan => x
  end.

(** [v.toFixed(2)] as a method call: only numbers have the method. *)
Definition toFixed (name : string) (v : value) : completion number :=
  match v with
  | Num x => Return (toFixed2 x)
  | _ => Throw (TypeError (name ++ ".toFixed is not a function")%string)
  end.

(** *** Property lookup *)

(** The properties every object literal inherits from [Object.prototype];
    each is a function, [__proto__] is the prototype itself. *)
Definition Object_prototype : list string :=
  [ "constructor"; "__defineGetter__"; "__defineSetter__"; "hasOwnProperty";
    "__lookupGetter__"; "__lookupSetter__"; "isPrototypeOf";
    "propertyIsEnumerable"; "toString"; "valueOf"; "__proto__";
    "toLocaleString" ].

Definition inherited (key : string) : bool :=
  existsb (String.eqb key) Object_prototype.

Fixpoint own (o : list (string * number)) (key : string) : option number :=
  match o with
  | [] => None
  | (k, x) :: o' => if String.eqb key k then Some x else own o' key
  end.

(** [o[key]] for an object literal [o] with numeric own properties. *)
Definition get (o : list (string * number)) (key : string) : value :=
  match own o key with
  | Some x => Num x
  | None => if inherited key then Obj else Undefined
  end.

End JS.

Declare Scope js_scope.
Delimit Scope js_scope with js.
Notation "x <- c ;; k" := (JS.bind c (fun x => k))
(at level 61, c at next level, right associativity) : js_scope.

(* ------------------------------------------------------------------ *)
(** ** Fee calculation *)

Module Fees.
Import JS.
#[local] Open Scope js_scope.

Definition PLATFORM_FEE_RATE : number := 0.05%float.
Definition STRIPE_FEE_RATE : number := 0.029%float.
Definition STRIPE_FIXED_FEE : number := 0.30%float.

Record fees : Type := mkFees {
  platformFee : number;
  processingFee : number;
  total : number
}.

(** [calculateFees(subtotal, deliveryFee = 0)] *)
Definition calculateFees (subtotal deliveryFee : value) : completion fees :=
  let deliveryFee :=
    match deliveryFee with Undefined => Num 0%float | _ => deliveryFee end in
  let platformFee := mul subtotal (Num PLATFORM_FEE_RATE) in
  let processingFee :=
    add (mul (add subtotal deliveryFee) (Num STRIPE_FEE_RATE))
        (Num STRIPE_FIXED_FEE) in
  let total := add (add (add subtotal platformFee) processingFee) deliveryFee in
  pf <- toFixed "platformFee" platformFee ;;
  pr <- toFixed "processingFee" processingFee ;;
  t <- toFixed "total" total ;;
  Return (mkFees pf pr t).

(** The [deliveryFees] table of both order routes. *)
Definition deliveryFees : list (string * number) :=
  [ ("pickup", 0%float); ("farmers-market", 1.99%float); ("home", 4.99%float) ].

(** [deliveryFees[deliveryOption] || 0] *)
Definition deliveryFeeOf (deliveryOption : string) : value :=
  or_else (get deliveryFees deliveryOption) (Num 0%float).

Definition recognized (deliveryOption : string) : Prop :=
  deliveryOption = "pickup" \/ deliveryOption = "home" \/
  deliveryOption = "farmers-market".

(** The body of [res.json] in [POST /api/orders/calculate-fees]. *)
Record FeeCalculation : Type := mkFeeCalculation {
  fc_subtotal : value;
  fc_deliveryFee : value;
  fc_platformFee : number;
  fc_processingFee : number;
  fc_total : number
}.

Inductive response : Type :=
| Json (body : FeeCalculation)
| Status400 (message : string).

(** [POST /api/orders/calculate-fees] with body [{subtotal, deliveryOption}] *)
Definition post_calculate_fees (subtotal : value) (deliveryOption : string)
  : response :=
  let deliveryFee := deliveryFeeOf deliveryOption in
  match calculateFees subtotal deliveryFee with
  | Return f =>
      Json (mkFeeCalculation subtotal deliveryFee
              (platformFee f) (processingFee f) (total f))
  | Throw e => Status400 (message e)
  end.

(** The sum the invariant of the data model speaks of, over the fields of
    a response, in the arithmetic of the program. *)
Definition components_sum (r : FeeCalculation) : value :=
  add (add (add (fc_subtotal r) (Num (fc_platformFee r)))
           (Num (fc_processingFee r)))
      (fc_deliveryFee r).

End Fees.

(* ------------------------------------------------------------------ *)
(** ** Tables and queries *)

Module Storage.
Import JS.

(** [point("location", { mode: "xy" })]: [x] is the longitude, [y] the
    latitude. *)
Record point : Type := mkPoint { x : number; y : number }.

(** The columns of [producers] the modelled queries read. *)
Record Producer : Type := mkProducer {
  producer_id : string;
  businessName : string;
  location : option point
}.

(** The columns of [products] the modelled queries read.  [price] is a
    [decimal(10, 2)], kept as its number of hundredths; [createdAt] is a
    timestamp; a nullable column is an [option]. *)
Record Product : Type := mkProduct {
  product_id : string;
  producerId : string;
  name : string;
  description : option string;
  category : string;
  price : Z;
  tags : option (list string);
  available : option bool;
  createdAt : Z
}.

(** A row of [cart]; [quantity] is an [integer] column, on which the [+] of
    the program is the addition of integers. *)
Record CartItem : Type := mkCartItem {
  cart_id : string;
  cart_userId : string;
  cart_productId : string;
  quantity : Z;
  cart_createdAt : Z
}.

(** [InsertCartItem] *)
Record InsertCartItem : Type := mkInsertCartItem {
  ins_userId : string;
  ins_productId : string;
  ins_quantity : Z
}.

(** [InsertOrder], with each decimal column as the JavaScript value whose
    [toString()] the route writes. *)
Record InsertOrder : Type := mkInsertOrder {
  io_userId : string;
  io_status : string;
  io_subtotal : number;
  io_platformFee : number;
  io_processingFee : number;
  io_deliveryFee : value;
  io_total : number;
  io_deliveryOption : string;
  io_deliveryAddress : option string;
  io_deliveryTime : option Z
}.

Record Order : Type := mkOrder {
  order_id : string;
  order_data : InsertOrder;
  order_createdAt : Z;
  order_updatedAt : Z
}.

(** What the route hands to [addOrderItems] for one cart item. *)
Record OrderItemData : Type := mkOrderItemData {
  oid_productId : string;
  oid_quantity : Z;
  oid_unitPrice : Z;
  oid_totalPrice : number
}.

Record OrderItem : Type := mkOrderItem {
  oi_id : string;
  oi_orderId : string;
  oi_productId : string;
  oi_quantity : Z;
  oi_unitPrice : Z;
  oi_totalPrice : number
}.

Record db : Type := mkDb {
  producers : list Producer;
  products : list Product;
  cart : list CartItem;
  orders : list Order;
  orderItems : list OrderItem
}.

(** The error of a statement that PostgreSQL rejects; its message is the
    one of the driver, for which "database error" stands. *)
Definition rejected : exn := Error "database error".

(** [Number(s)] for the text of a [decimal(10, 2)] of [c] hundredths. *)
Definition Number_of_decimal (c : Z) : number :=
  of_hundredths (c <? 0)%Z (Z.abs c).

(** The JavaScript number of an [integer] column. *)
Definition Number_of_integer (n : Z) : number :=
  SF2Prim (binary_normalize prec emax n 0 false).

(** *** Ordering *)

Fixpoint insert_by {A} (le : A -> A -> bool) (a : A) (l : list A) : list A :=
  match l with
  | [] => [a]
  | b :: l' => if le a b then a :: l else b :: insert_by le a l'
  end.

(** [ORDER BY]: the rows in the order of [le], rows that compare equal in
    the order the query produced them. *)
Definition orderBy {A} (le : A -> A -> bool) (l : list A) : list A :=
  fold_right (insert_by le) [] l.

(** *** Cart *)

Definition same_pair (userId productId : string) (c : CartItem) : bool :=
  String.eqb (cart_userId c) userId && String.eqb (cart_productId c) productId.

Definition set_quantity (q : Z) (c : CartItem) : CartItem :=
  mkCartItem (cart_id c) (cart_userId c) (cart_productId c) q (cart_createdAt c).

(** [UPDATE cart SET quantity = q WHERE id = i] *)
Definition update_quantity (i : string) (q : Z) (rows : list CartItem)
  : list CartItem :=
  map (fun c => if String.eqb (cart_id c) i then set_quantity q c else c) rows.

(** The values of an [integer] column: PostgreSQL rejects a statement
    that binds another number to [cart.quantity]. *)
Definition is_int4 (q : Z) : bool :=
  (-2147483648 <=? q)%Z && (q <=? 2147483647)%Z.

(** [INSERT INTO cart] is applied when the quantity fits the column, the
    user and the product referenced are rows of [users] and [products],
    and no row carries the id. *)
Definition accepts_cart_row (users : list string) (products : list Product)
  (rows : list CartItem) (c : CartItem) : bool :=
  is_int4 (quantity c)
  && existsb (String.eqb (cart_userId c)) users
  && existsb (fun p => String.eqb (cart_productId c) (product_id p)) products
  && negb (existsb (fun c' => String.eqb (cart_id c') (cart_id c)) rows).

(** [addToCart(item)]; [uuid] is the result of [randomUUID()], [now] of
    [new Date()], [users] are the ids of the table [users].  The result is
    the new table and the row returned; a statement that is rejected
    changes nothing and the call throws. *)
Definition addToCart (uuid : string) (now : Z) (item : InsertCartItem)
  (users : list string) (products : list Product) (rows : list CartItem)
  : completion (list CartItem * option CartItem) :=
  let existing := filter (same_pair (ins_userId item) (ins_productId item)) rows in
  match existing with
  | e :: _ =>
      let q := (quantity e + ins_quantity item)%Z in
      if is_int4 q then
        let rows' := update_quantity (cart_id e) q rows in
        Return
          (rows',
           hd_error (filter (fun c => String.eqb (cart_id c) (cart_id e)) rows'))
      else Throw rejected
  | [] =>
      let cartItem :=
        mkCartItem uuid (ins_userId item) (ins_productId item)
          (ins_quantity item) now in
      if accepts_cart_row users products rows cartItem
      then Return (rows ++ [cartItem], Some cartItem)
      else Throw rejected
  end.

(** [updateCartItem(id, quantity)] *)
Definition updateCartItem (i : string) (q : Z) (rows : list CartItem)
  : completion (list CartItem * CartItem) :=
  if is_int4 q then
    let rows' := update_quantity i q rows in
    match filter (fun c => String.eqb (cart_id c) i) rows' with
    | c :: _ => Return (rows', c)
    | [] => Throw (Error "Cart item not found")
    end
  else Throw rejected.

(** [removeFromCart(id)] *)
Definition removeFromCart (i : string) (rows : list CartItem) : list CartItem :=
  filter (fun c => negb (String.eqb (cart_id c) i)) rows.

(** [clearCart(userId)] *)
Definition clearCart (userId : string) (rows : list CartItem) : list CartItem :=
  filter (fun c => negb (String.eqb (cart_userId c) userId)) rows.

(** The requests that change [cart]. *)
Inductive cart_op : Type :=
| AddToCart (uuid : string) (now : Z) (item : InsertCartItem)
| UpdateCartItem (i : string) (q : Z)
| RemoveFromCart (i : string)
| ClearCart (userId : string).

Definition cart_step (users : list string) (products : list Product)
  (rows : list CartItem) (op : cart_op) : list CartItem :=
  match op with
  | AddToCart uuid now item =>
      match addToCart uuid now item users products rows with
      | Return (rows', _) => rows'
      | Throw _ => rows
      end
  | UpdateCartItem i q =>
      match updateCartItem i q rows with
      | Return (rows', _) => rows'
      | Throw _ => rows
      end
  | RemoveFromCart i => removeFromCart i rows
  | ClearCart userId => clearCart userId rows
  end.

(** The cart after a sequence of requests, from an empty table. *)
Definition cart_after (users : list string) (products : list Product)
  (ops : list cart_op) : list CartItem :=
  fold_left (cart_step users products) ops [].

Definition pair_of (c : CartItem) : string * string :=
  (cart_userId c, cart_productId c).

(** At most one row for each (user, product). *)
Definition pairs_unique (rows : list CartItem) : Prop :=
  NoDup (map pair_of rows).

(** One row for each (user, product), and one row for each id. *)
Definition cart_invariant (rows : list CartItem) : Prop :=
  pairs_unique rows /\ NoDup (map cart_id rows).

(** *** Referential integrity *)

(** The producers a product refers to. *)
Definition producers_of (d : db) (p : Product) : list Producer :=
  filter (fun r => String.eqb (producerId p) (producer_id r)) (producers d).

(** [products.producerId] references [producers.id], a primary key: each
    product has its producer, and only one. *)
Definition foreign_keys_hold (d : db) : Prop :=
  forall p, In p (products d) -> exists r, producers_of d p = [r].

(** *** Orders *)

(** A row of [getCartItems]: the cart item with its product, itself with
    its producer. *)
Record CartItemWithProduct : Type := mkCartItemWithProduct {
  item : CartItem;
  item_product : Product;
  item_producer : Producer
}.

(** [cart INNER JOIN products ON cart.productId = products.id
         INNER JOIN producers ON products.producerId = producers.id
     WHERE cart.userId = userId] *)
Definition getCartItems (userId : string) (d : db) : list CartItemWithProduct :=
  flat_map (fun c =>
    flat_map (fun p =>
      flat_map (fun r =>
        if String.eqb (cart_productId c) (product_id p)
           && String.eqb (producerId p) (producer_id r)
           && String.eqb (cart_userId c) userId
        then [mkCartItemWithProduct c p r] else [])
      (producers d))
    (products d))
  (cart d).

(** [createOrder(insertOrder)]; the two [new Date()] of the call read the
    same instant [now]. *)
Definition createOrder (uuid : string) (now : Z) (o : InsertOrder) (d : db)
  : db * Order :=
  let order := mkOrder uuid o now now in
  (mkDb (producers d) (products d) (cart d) (orders d ++ [order]) (orderItems d),
   order).

(** The rows [addOrderItems] builds: the [k]-th item gets the [k]-th
    [randomUUID()] of the call. *)
Fixpoint orderItemsData (uuid : nat -> string) (k : nat) (orderId : string)
  (items : list OrderItemData) : list OrderItem :=
  match items with
  | [] => []
  | i :: items' =>
      mkOrderItem (uuid k) orderId (oid_productId i) (oid_quantity i)
        (oid_unitPrice i) (oid_totalPrice i)
      :: orderItemsData uuid (S k) orderId items'
  end.

(** [addOrderItems(orderId, items)] *)
Definition addOrderItems (uuid : nat -> string) (orderId : string)
  (items : list OrderItemData) (d : db) : db :=
  mkDb (producers d) (products d) (cart d) (orders d)
    (orderItems d ++ orderItemsData uuid 0 orderId items).

(** [clearCart(userId)] on the database. *)
Definition clearCart_db (userId : string) (d : db) : db :=
  mkDb (producers d) (products d) (clearCart userId (cart d)) (orders d)
    (orderItems d).

End Storage.

(* ------------------------------------------------------------------ *)
(** ** Checkout *)

Module Checkout.
Import JS Fees Storage.

(** The awaited calls of [POST /api/orders], in program order. *)
Inductive call : Type :=
| GetCartItems
| CreateOrder
| AddOrderItems
| ClearCart.

Definition call_eqb (a b : call) : bool :=
  match a, b with
  | GetCartItems, GetCartItems | CreateOrder, CreateOrder
  | AddOrderItems, AddOrderItems | ClearCart, ClearCart => true
  | _, _ => false
  end.

(** What the request draws from its environment: the UUIDs and the clock,
    and the awaited call that rejects, if one does.  Each call is one SQL
    statement sent on its own: a statement that fails changes nothing, and
    the statements before it stay applied. *)
Record env : Type := mkEnv {
  order_uuid : string;
  item_uuid : nat -> string;
  now : Z;
  fault : option call
}.

Definition rejects (e : env) (c : call) : bool :=
  match fault e with
  | Some c' => call_eqb c c'
  | None => false
  end.

Definition db_error : exn := Error "database error".

Record body : Type := mkBody {
  deliveryOption : string;
  deliveryAddress : option string;
  deliveryTime : option Z
}.

Inductive response : Type :=
| Ok (order : Order)
| Status400 (message : string)
| Status401 (message : string).

(** [cartItems.reduce((sum, item) => sum + Number(item.product.price) * item.quantity, 0)] *)
Definition line_total (i : CartItemWithProduct) : number :=
  (Number_of_decimal (price (item_product i))
   * Number_of_integer (quantity (item i)))%float.

Definition subtotal_of (cartItems : list CartItemWithProduct) : number :=
  fold_left (fun sum i => (sum + line_total i)%float) cartItems 0%float.

Definition orderItemData_of (i : CartItemWithProduct) : OrderItemData :=
  mkOrderItemData (product_id (item_product i)) (quantity (item i))
    (price (item_product i)) (line_total i).

(** The [try] block of [POST /api/orders] for the user [userId]: the
    database it leaves and how the block completes. *)
Definition try_post_orders (e : env) (userId : string) (b : body) (d : db)
  : db * completion response :=
  if rejects e GetCartItems then (d, Throw db_error) else
  let cartItems := getCartItems userId d in
  match cartItems with
  | [] => (d, Return (Status400 "Cart is empty"))
  | _ :: _ =>
      let subtotal := subtotal_of cartItems in
      let deliveryFee := deliveryFeeOf (deliveryOption b) in
      match calculateFees (Num subtotal) deliveryFee with
      | Throw x => (d, Throw x)
      | Return f =>
          if rejects e CreateOrder then (d, Throw db_error) else
          let (d1, order) :=
            createOrder (order_uuid e) (now e)
              (mkInsertOrder userId "pending" subtotal (platformFee f)
                 (processingFee f) deliveryFee (total f) (deliveryOption b)
                 (deliveryAddress b) (deliveryTime b)) d in
          if rejects e AddOrderItems then (d1, Throw db_error) else
          let d2 :=
            addOrderItems (item_uuid e) (order_id order)
              (map orderItemData_of cartItems) d1 in
          if rejects e ClearCart then (d2, Throw db_error) else
          (clearCart_db userId d2, Return (Ok order))
      end
  end.

(** [POST /api/orders]; [user] is the authenticated user's id, if any. *)
Definition post_orders (e : env) (user : option string) (b : body) (d : db)
  : db * response :=
  match user with
  | None => (d, Status401 "Not authenticated")
  | Some userId =>
      match try_post_orders e userId b d with
      | (d', Return r) => (d', r)
      | (d', Throw x) => (d', Status400 (message x))
      end
  end.

(** The order the route builds from a cart and a numeric delivery fee. *)
Definition order_of (e : env) (userId : string) (b : body)
  (cartItems : list CartItemWithProduct) (fee : number) : Order :=
  let s := subtotal_of cartItems in
  mkOrder (order_uuid e)
    (mkInsertOrder userId "pending" s
       (toFixed2 (s * 0.05)%float)
       (toFixed2 ((s + fee) * 0.029 + 0.30)%float)
       (Num fee)
       (toFixed2 (s + s * 0.05 + ((s + fee) * 0.029 + 0.30) + fee)%float)
       (deliveryOption b) (deliveryAddress b) (deliveryTime b))
    (now e) (now e).

Definition with_order (o : Order) (d : db) : db :=
  mkDb (producers d) (products d) (cart d) (orders d ++ [o]) (orderItems d).

Definition with_items (e : env) (o : Order)
  (cartItems : list CartItemWithProduct) (d : db) : db :=
  addOrderItems (item_uuid e) (order_id o) (map orderItemData_of cartItems) d.


End Checkout.

(* ------------------------------------------------------------------ *)
(** ** Product search *)

Module Search.
Import JS Storage.

(** A row of [searchProducts]. *)
Record ProductWithProducer : Type := mkProductWithProducer {
  product : Product;
  producer : Producer;
  distance : option number
}.

(** ToBoolean of an optional numeric argument: [undefined] is falsy. *)
Definition given (a : option number) : bool :=
  match a with
  | Some v => truthy_number v
  | None => false
  end.

(** The number bound to a parameter of a query; the queries read it only
    under a guard that makes the argument a number. *)
Definition bound (a : option number) : number :=
  match a with
  | Some v => v
  | None => PrimFloat.nan
  end.

(** [ST_SetSRID(ST_MakePoint(lng, lat), 4326)] *)
Definition ST_MakePoint (lng lat : option number) : point :=
  mkPoint (bound lng) (bound lat).

(** [ORDER BY e ASC] on a nullable number: NULL comes last. *)
Definition nulls_last (a b : option number) : bool :=
  match a, b with
  | Some u, Some v => (u <=? v)%float
  | Some _, None => true
  | None, Some _ => false
  | None, None => true
  end.

(** Newest first. *)
Definition newest_first (a b : ProductWithProducer) : Prop :=
  (createdAt (product b) <= createdAt (product a))%Z.

Section Postgres.

(** The operators the queries leave to PostgreSQL: the distance in metres
    between two geography points, and [text ILIKE pattern]. *)
Variable ST_Distance : point -> point -> number.
Variable ILIKE : string -> string -> bool.

(** [ST_DWithin(a, b, r)]: the two points are within [r] metres. *)
Definition ST_DWithin (a b : point) (r : number) : bool :=
  (ST_Distance a b <=? r)%float.

(** [ST_Distance(origin, producers.location)], NULL without a location. *)
Definition metres (origin : point) (r : Producer) : option number :=
  option_map (ST_Distance origin) (location r).

(** [products INNER JOIN producers ON products.producerId = producers.id],
    with the [distance] column of the selection. *)
Definition joined (lat lng : option number) (d : db) : list ProductWithProducer :=
  flat_map (fun p =>
    flat_map (fun r =>
      if String.eqb (producerId p) (producer_id r)
      then [mkProductWithProducer p r
              (if given lat && given lng
               then option_map (fun m => (m / 1000)%float)
                      (metres (ST_MakePoint lng lat) r)
               else Some 0%float)]
      else [])
    (producers d))
  (products d).

(** [eq(products.available, true)] *)
Definition is_available (p : Product) : bool :=
  match available p with
  | Some true => true
  | _ => false
  end.

(** [name ILIKE '%' || query || '%' OR description ILIKE '%' || query || '%'],
    pushed when [query] is not the empty string. *)
Definition matches_query (query : string) (p : Product) : bool :=
  match query with
  | EmptyString => true
  | _ =>
      let pattern := ("%" ++ query ++ "%")%string in
      ILIKE (name p) pattern
      || match description p with
         | Some text => ILIKE text pattern
         | None => false
         end
  end.

(** [eq(products.category, category)], pushed when [category] is truthy. *)
Definition matches_category (category0 : option string) (p : Product) : bool :=
  match category0 with
  | None | Some EmptyString => true
  | Some c => String.eqb (category p) c
  end.

(** [tags.map(tag => `'${tag}'`).join(',')]: the one parameter of the tag
    condition. *)
Definition quoted_tags (tags0 : list string) : string :=
  String.concat "," (map (fun tag => ("'" ++ tag ++ "'")%string) tags0).

(** [products.tags && ARRAY[$1]::text[]], pushed when [tags] is a non-empty
    array. *)
Definition matches_tags (tags0 : option (list string)) (p : Product) : bool :=
  match tags0 with
  | None | Some [] => true
  | Some ts =>
      match tags p with
      | Some own_tags => existsb (String.eqb (quoted_tags ts)) own_tags
      | None => false
      end
  end.

(** [ST_DWithin(origin, producers.location, radiusKm * 1000)], pushed when
    [lat && lng && radiusKm] is truthy. *)
Definition within_radius (lat lng radiusKm : option number) (r : Producer) : bool :=
  if given lat && given lng && given radiusKm then
    match location r with
    | Some l =>
        ST_DWithin (ST_MakePoint lng lat) l (bound radiusKm * 1000)%float
    | None => false
    end
  else true.

(** [and(...conditions)] *)
Definition selected (query : string) (lat lng radiusKm : option number)
  (category0 : option string) (tags0 : option (list string))
  (row : ProductWithProducer) : bool :=
  is_available (product row)
  && matches_query query (product row)
  && matches_category category0 (product row)
  && matches_tags tags0 (product row)
  && within_radius lat lng radiusKm (producer row).

(** [ORDER BY ST_Distance(origin, producers.location)] *)
Definition by_distance (origin : point) (a b : ProductWithProducer) : bool :=
  nulls_last (metres origin (producer a)) (metres origin (producer b)).

(** [ORDER BY products.createdAt DESC] *)
Definition by_recency (a b : ProductWithProducer) : bool :=
  (createdAt (product b) <=? createdAt (product a))%Z.

(** What PostgreSQL answers to a statement that selects [rows].
    [producers.location] is a [point] column ([shared/schema.ts]), and
    PostgreSQL has no cast from [point] to [geography]: a statement whose
    text holds [producers.location::geography] is rejected when it is
    analysed, whatever the tables hold, and the awaited call throws. *)
Definition answer {A} (casts_location : bool) (rows : list A)
  : completion (list A) :=
  if casts_location then Throw rejected else Return rows.

(** [searchProducts(query, lat, lng, radiusKm, category, tags)].  The
    [distance] column and the ordering hold the cast when [lat && lng] is
    truthy; the radius condition comes only with them. *)
Definition searchProducts (query : string) (lat lng radiusKm : option number)
  (category0 : option string) (tags0 : option (list string)) (d : db)
  : completion (list ProductWithProducer) :=
  let rows :=
    filter (selected query lat lng radiusKm category0 tags0) (joined lat lng d) in
  answer (given lat && given lng)
    (if given lat && given lng
     then orderBy (by_distance (ST_MakePoint lng lat)) rows
     else orderBy by_recency rows).

Inductive response : Type :=
| Json (rows : list ProductWithProducer)
| Status500 (message : string).


End Postgres.

(** *** Stand-ins for PostgreSQL, to run the queries on examples *)

(** The length of a degree of a great circle of the mean Earth, in metres. *)
Definition degree : number := 111195%float.

(** The distance in the plane of coordinates, in degrees of arc: the
    great-circle distance when the two points share a meridian. *)
Definition plane_distance (a b : point) : number :=
  (sqrt ((x a - x b) * (x a - x b) + (y a - y b) * (y a - y b)) * degree)%float.

Definition lower (c : Ascii.ascii) : Ascii.ascii :=
  let n := Ascii.nat_of_ascii c in
  if (65 <=? n)%nat && (n <=? 90)%nat then Ascii.ascii_of_nat (n + 32) else c.

(** [text LIKE pattern] without regard to the case of ASCII letters: [%]
    stands for any text, [_] for any character. *)
Fixpoint like (pattern : string) : string -> bool :=
  match pattern with
  | EmptyString =>
      fun text => match text with EmptyString => true | _ => false end
  | String c pattern' =>
      if Ascii.eqb c "%"%char then
        fix skip (text : string) : bool :=
          like pattern' text
          || match text with
             | EmptyString => false
             | String _ text' => skip text'
             end
      else
        fun text =>
          match text with
          | EmptyString => false
          | String c' text' =>
              (Ascii.eqb c "_"%char || Ascii.eqb (lower c) (lower c'))
              && like pattern' text'
          end
  end.

Definition ilike (text pattern : string) : bool := like pattern text.

End Search.

(* ------------------------------------------------------------------ *)
(** ** A small database, to run the routes on *)

Module Sample.
Import JS Storage Checkout Search.

Definition farm : Producer :=
  mkProducer "farm" "Green Acres" (Some (mkPoint 10 45)).
Definition orchard : Producer :=
  mkProducer "orchard" "Hill Orchard" (Some (mkPoint 10 46)).

Definition eggs : Product :=
  mkProduct "eggs" "farm" "Eggs" None "dairy" 450 (Some ["fresh"])
    (Some true) 100.
Definition apples : Product :=
  mkProduct "apples" "orchard" "Apples" (Some "Crisp") "fruits" 299 None
    (Some true) 200.
Definition cider : Product :=
  mkProduct "cider" "orchard" "Cider" None "beverages" 1200 None
    (Some false) 300.

Definition ann_eggs : CartItem := mkCartItem "c1" "ann" "eggs" 3 1000.
Definition bob_eggs : CartItem := mkCartItem "c2" "bob" "eggs" 1 1001.
Definition ann_apples : CartItem := mkCartItem "c3" "ann" "apples" 2 1002.

Definition shop : db :=
  mkDb [farm; orchard] [eggs; apples; cider] [ann_eggs; bob_eggs; ann_apples]
    [] [].

Definition ann_cart : list CartItemWithProduct :=
  [ mkCartItemWithProduct ann_eggs eggs farm;
    mkCartItemWithProduct ann_apples apples orchard ].

Definition item_ids (k : nat) : string :=
  match k with
  | 0 => "i0"
  | 1 => "i1"
  | _ => "i"
  end.

(** A request at time 2000, with the awaited call that rejects. *)
Definition request (fault : option call) : env :=
  mkEnv "o1" item_ids 2000 fault.

Definition pickup : body := mkBody "pickup" None None.

End Sample.

(* ------------------------------------------------------------------ *)
(** ** Payment intents *)

Module Payments.
Import JS.

(** [Math.round(v)]: the integer nearest to [v], the larger one when there
    are two; a negative [v] that rounds to zero gives [-0]. *)
Definition Math_round (v : number) : number :=
  match Prim2SF v with
  | S754_finite s m e =>
      if (0 <=? e)%Z then v
      else
        let n :=
          ((2 * (if s then Z.neg m else Z.pos m) + 2 ^ (- e)) / 2 ^ (1 - e))%Z in
        match n with
        | Z0 => SF2Prim (S754_zero s)
        | _ => SF2Prim (binary_normalize prec emax n 0 false)
        end
  | _ => v
  end.

(** The argument of [stripe.paymentIntents.create]. *)
Record PaymentIntentParams : Type := mkPaymentIntentParams {
  pi_amount : number;
  pi_currency : string;
  pi_orderId : option string;
  pi_userId : string
}.

(** [{ amount: Math.round(amount * 100), currency: "cad", metadata }] *)
Definition intent_params (userId : string) (amount : value)
  (orderId : option string) : PaymentIntentParams :=
  mkPaymentIntentParams (Math_round (ToNumber (mul amount (Num 100))))
    "cad" orderId userId.

Inductive response : Type :=
| ClientSecret (secret : string)
| Status401 (message : string)
| Status500 (message : string).

(** [POST /api/create-payment-intent]; [create] is Stripe's
    [paymentIntents.create], which answers the client secret or throws. *)
Definition post_create_payment_intent
  (create : PaymentIntentParams -> completion string)
  (user : option string) (amount : value) (orderId : option string)
  : response :=
  match user with
  | None => Status401 "Not authenticated"
  | Some userId =>
      match create (intent_params userId amount orderId) with
      | Return secret => ClientSecret secret
      | Throw e =>
          Status500 ("Error creating payment intent: " ++ message e)%string
      end
  end.

(** [f] on each of the [count] integers from [c] on. *)
Fixpoint holds_from (count : nat) (c : Z) (f : Z -> bool) : bool :=
  match count with
  | O => true
  | S count' => f c && holds_from count' (c + 1)%Z f
  end.

End Payments.

(* ------------------------------------------------------------------ *)
(** ** Producers near a location *)

Module Producers.
Import JS Storage Search.

Section Postgres.
Variable ST_Distance : point -> point -> number.



Inductive response : Type :=
| Json (rows : list Producer)
| Status400 (message : string)
| Status500 (message : string).


End Postgres.

End Producers.

(* ------------------------------------------------------------------ *)
(** ** Reading orders *)

Module Orders.
Import JS Storage.

(** An item of [getOrder]: the order item with its product and the producer
    of the product. *)
Record OrderItemRow : Type := mkOrderItemRow {
  row_id : string;
  row_quantity : Z;
  row_unitPrice : Z;
  row_totalPrice : number;
  row_product : Product;
  row_producer : Producer
}.

Record OrderWithItems : Type := mkOrderWithItems {
  the_order : Order;
  items : list OrderItemRow
}.

(** [orderItems INNER JOIN products ON orderItems.productId = products.id
         INNER JOIN producers ON products.producerId = producers.id
     WHERE orderItems.orderId = id] *)
Definition order_rows (id : string) (d : db) : list OrderItemRow :=
  flat_map (fun oi =>
    flat_map (fun p =>
      flat_map (fun r =>
        if String.eqb (oi_productId oi) (product_id p)
           && String.eqb (producerId p) (producer_id r)
           && String.eqb (oi_orderId oi) id
        then [mkOrderItemRow (oi_id oi) (oi_quantity oi) (oi_unitPrice oi)
                (oi_totalPrice oi) p r]
        else [])
      (producers d))
    (products d))
  (orderItems d).

(** [getOrder(id)]: [undefined] without an order of that id. *)
Definition getOrder (id : string) (d : db) : option OrderWithItems :=
  match filter (fun o => String.eqb (order_id o) id) (orders d) with
  | [] => None
  | o :: _ => Some (mkOrderWithItems o (order_rows id d))
  end.

(** [ORDER BY orders.createdAt DESC] *)
Definition newer (a b : Order) : bool :=
  (order_createdAt b <=? order_createdAt a)%Z.

(** [getOrdersByUser(userId)]: [getOrder] on the id of each order of the
    user, newest first. *)
Definition getOrdersByUser (userId : string) (d : db)
  : list (option OrderWithItems) :=
  map (fun o => getOrder (order_id o) d)
    (orderBy newer
       (filter (fun o => String.eqb (io_userId (order_data o)) userId)
          (orders d))).

(** The distinct values of a column, each at its first occurrence:
    [GROUP BY]. *)
Fixpoint groupBy (l : list string) : list string :=
  match l with
  | [] => []
  | a :: l' => a :: filter (fun b => negb (String.eqb b a)) (groupBy l')
  end.

(** [SELECT orderItems.orderId FROM orderItems
       INNER JOIN products ON orderItems.productId = products.id
     WHERE products.producerId = producerId GROUP BY orderItems.orderId] *)
Definition orderIds_of_producer (producer : string) (d : db) : list string :=
  groupBy
    (flat_map (fun oi =>
       flat_map (fun p =>
         if String.eqb (oi_productId oi) (product_id p)
            && String.eqb (producerId p) producer
         then [oi_orderId oi] else [])
       (products d))
     (orderItems d)).

(** [getOrdersByProducer(producerId)] *)
Definition getOrdersByProducer (producer : string) (d : db)
  : list (option OrderWithItems) :=
  map (fun id => getOrder id d) (orderIds_of_producer producer d).

Definition set_status (status : string) (now : Z) (o : Order) : Order :=
  let i := order_data o in
  mkOrder (order_id o)
    (mkInsertOrder (io_userId i) status (io_subtotal i) (io_platformFee i)
       (io_processingFee i) (io_deliveryFee i) (io_total i)
       (io_deliveryOption i) (io_deliveryAddress i) (io_deliveryTime i))
    (order_createdAt o) now.

(** [updateOrderStatus(id, status)]; [now] is the result of [new Date()]. *)
Definition updateOrderStatus (id status : string) (now : Z) (d : db)
  : completion (db * Order) :=
  let orders' :=
    map (fun o => if String.eqb (order_id o) id then set_status status now o else o)
      (orders d) in
  match filter (fun o => String.eqb (order_id o) id) orders' with
  | o :: _ =>
      Return (mkDb (producers d) (products d) (cart d) orders' (orderItems d), o)
  | [] => Throw (Error "Order not found")
  end.

Inductive response : Type :=
| Json (order : OrderWithItems)
| Status401 (message : string)
| Status403 (message : string)
| Status404 (message : string).

(** [GET /api/orders/:id]; [user] is the authenticated user's id, if any. *)
Definition get_order (user : option string) (id : string) (d : db) : response :=
  match user with
  | None => Status401 "Not authenticated"
  | Some userId =>
      match getOrder id d with
      | None => Status404 "Order not found"
      | Some o =>
          if negb (String.eqb (io_userId (order_data (the_order o))) userId)
          then Status403 "Access denied"
          else Json o
      end
  end.

Inductive list_response : Type :=
| JsonList (orders : list (option OrderWithItems))
| ListStatus401 (message : string).

(** [GET /api/orders] *)
Definition get_orders (user : option string) (d : db) : list_response :=
  match user with
  | None => ListStatus401 "Not authenticated"
  | Some userId => JsonList (getOrdersByUser userId d)
  end.

End Orders.

(* ------------------------------------------------------------------ *)
(** ** Amounts in cents *)

Module Cents.
Import JS Fees Storage Payments.

(** The number of hundredths nearest to a number. *)
Definition cents (v : number) : Z :=
  match Prim2SF v with
  | S754_finite s m e =>
      if s then (- nearest_hundredths m e)%Z else nearest_hundredths m e
  | _ => 0%Z
  end.

(** What the fee route answers on a subtotal of [c] cents: a total that is
    a number of cents, not below the subtotal, within a cent of the sum of
    the components answered, and at least the subtotal, the delivery fee
    and the fixed fee of 0.30 together. *)
Definition fees_check (deliveryOption : string) (c : Z) : bool :=
  let subtotal := Number_of_decimal c in
  match post_calculate_fees (Num subtotal) deliveryOption with
  | Json r =>
      match fc_deliveryFee r with
      | Num d =>
          let total := cents (fc_total r) in
          let delivery := cents d in
          (subtotal <=? fc_total r)%float
          && PrimFloat.Leibniz.eqb (Number_of_decimal total) (fc_total r)
          && (Z.abs (total
                     - (c + cents (fc_platformFee r)
                        + cents (fc_processingFee r) + delivery)) <=? 1)%Z
          && (c + delivery + 30 <=? total)%Z
      | _ => false
      end
  | Fees.Status400 _ => false
  end.

(** The amount of the payment intent for [c] cents is [c]. *)
Definition intent_check (c : Z) : bool :=
  PrimFloat.Leibniz.eqb
    (pi_amount (intent_params "" (Num (Number_of_decimal c)) None))
    (Number_of_integer c).

End Cents.

(* ------------------------------------------------------------------ *)
(** ** Cart routes *)

Module CartRoutes.
Import JS Storage.

(** The quantity a cart holds of a product for a user, over all the rows of
    the pair. *)
Definition quantity_of (userId productId : string) (rows : list CartItem) : Z :=
  fold_right Z.add 0%Z (map quantity (filter (same_pair userId productId) rows)).

(** The values of an [integer] column, as [cart.quantity] is. *)
Definition int4 (q : Z) : Prop := (-2147483648 <= q <= 2147483647)%Z.

(** [cart.productId] references [products.id], a primary key. *)
Definition cart_references_hold (d : db) : Prop :=
  forall c, In c (cart d) ->
    exists p,
      filter (fun p => String.eqb (cart_productId c) (product_id p)) (products d)
      = [p].

Inductive response : Type :=
| Json (row : CartItem)
| Message (message : string)
| Status400 (message : string)
| Status401 (message : string).

(** [PATCH /api/cart/:id] with body [{quantity}] *)
Definition patch_cart (user : option string) (id : string) (q : Z)
  (rows : list CartItem) : list CartItem * response :=
  match user with
  | None => (rows, Status401 "Not authenticated")
  | Some _ =>
      match updateCartItem id q rows with
      | Return (rows', c) => (rows', Json c)
      | Throw e => (rows, Status400 (message e))
      end
  end.

(** [DELETE /api/cart/:id] *)
Definition delete_cart (user : option string) (id : string)
  (rows : list CartItem) : list CartItem * response :=
  match user with
  | None => (rows, Status401 "Not authenticated")
  | Some _ => (removeFromCart id rows, Message "Item removed from cart")
  end.

End CartRoutes.

(* ------------------------------------------------------------------ *)
(** ** The sample database after a checkout *)

Module SampleOrders.
Import JS Storage Checkout.

(** The sample shop after the checkout of ann. *)
Definition sold : db :=
  fst (post_orders (Sample.request None) (Some "ann") Sample.pickup Sample.shop).

End SampleOrders.

(* ------------------------------------------------------------------ *)
(** ** Tags *)

Module Tags.

(** The text starts with an apostrophe. *)
Definition quoted (s : string) : bool :=
  match s with
  | String c _ => Ascii.eqb c "'"%char
  | EmptyString => false
  end.

End Tags.

(* ------------------------------------------------------------------ *)
(** ** Products *)

Module Products.
Import JS Storage.

(** The fields of [InsertProduct] that reach the modelled columns; the
    price is the text of a [decimal(10, 2)], kept as its hundredths. *)
Record InsertProduct : Type := mkInsertProduct {
  ip_producerId : string;
  ip_name : string;
  ip_description : option string;
  ip_category : string;
  ip_price : Z;
  ip_tags : option (list string)
}.

(** [createProduct(insertProduct)]: [tags] is [insertProduct.tags || []],
    [available] is [true] whatever the request says. *)
Definition createProduct (uuid : string) (now : Z) (i : InsertProduct) (d : db)
  : db * Product :=
  let p :=
    mkProduct uuid (ip_producerId i) (ip_name i) (ip_description i)
      (ip_category i) (ip_price i)
      (Some (match ip_tags i with Some ts => ts | None => [] end))
      (Some true) now in
  (mkDb (producers d) (products d ++ [p]) (cart d) (orders d) (orderItems d), p).

(** [getProduct(id)]: the first row of
    [products INNER JOIN producers ON products.producerId = producers.id
     WHERE products.id = id], [undefined] without one. *)
Definition getProduct (id : string) (d : db) : option (Product * Producer) :=
  hd_error
    (flat_map (fun p =>
       flat_map (fun r =>
         if String.eqb (product_id p) id
            && String.eqb (producerId p) (producer_id r)
         then [(p, r)] else [])
       (producers d))
     (products d)).

(** [getProductsByProducer(producerId)] *)
Definition getProductsByProducer (producer : string) (d : db) : list Product :=
  filter (fun p => String.eqb (producerId p) producer) (products d).

Inductive response : Type :=
| Json (row : Product * Producer)
| Status404 (message : string).

(** [GET /api/products/:id] *)
Definition get_product (id : string) (d : db) : response :=
  match getProduct id d with
  | Some row => Json row
  | None => Status404 "Product not found"
  end.

End Products.

(* ------------------------------------------------------------------ *)
(** ** The producer dashboard *)

Module Dashboard.

(** [handleTagToggle(tag)] on the tags of the product form. *)
Definition handleTagToggle (tag : string) (tags : list string) : list string :=
  if existsb (String.eqb tag) tags
  then filter (fun t => negb (String.eqb t tag)) tags
  else tags ++ [tag].

End Dashboard.

(* ------------------------------------------------------------------ *)
(** ** The rows of an order *)

Module OrderRows.
Import JS Storage Checkout Orders.

(** The row [getOrder] reads for the order item of a cart item: the
    product, its producer, the quantity and the unit price. *)
Definition row_of_item (i : CartItemWithProduct) (row : OrderItemRow) : Prop :=
  row_product row = item_product i
  /\ row_producer row = item_producer i
  /\ row_quantity row = quantity (item i)
  /\ row_unitPrice row = price (item_product i).

End OrderRows.

(* ================================================================== *)
(** * Properties *)

(* ------------------------------------------------------------------ *)
(** ** Rounding to hundredths *)

Module RoundingProperties.
Import JS.
#[local] Open Scope Z_scope.

(** Round half up: for a value [m * 2^e] with a fractional part, the
    integer [n] of [toFixed] satisfies [n - 1/2 <= 100 * m * 2^e < n + 1/2]
    (stated after multiplication by [2 * 2^(-e)]). *)
Lemma nearest_hundredths_half_up (m : positive) (e : Z) :
  e < 0 ->
  let n := nearest_hundredths m e in
  2 * n * 2 ^ (- e) - 2 ^ (- e) <= 200 * Z.pos m < 2 * n * 2 ^ (- e) + 2 ^ (- e).
Proof.
  intros He n. unfold n, nearest_hundredths.
  destruct (Z.leb_spec 0 e) as [H|_]; [lia|].
  replace (1 - e) with (Z.succ (- e)) by lia.
  rewrite Z.pow_succ_r by lia.
  assert (Hk : 0 < 2 ^ (- e)) by (apply Z.pow_pos_nonneg; lia).
  set (k := 2 ^ (- e)) in *.
  pose proof (Z.div_mod (200 * Z.pos m + k) (2 * k) ltac:(lia)) as Hdm.
  pose proof (Z.mod_pos_bound (200 * Z.pos m + k) (2 * k) ltac:(lia)) as Hb.
  set (q := (200 * Z.pos m + k) / (2 * k)) in *.
  nia.
Qed.

(** An integer value has its hundredths exactly. *)
Lemma nearest_hundredths_integer (m : positive) (e : Z) :
  0 <= e -> nearest_hundredths m e = 100 * (Z.pos m * 2 ^ e).
Proof.
  intros He. unfold nearest_hundredths.
  destruct (Z.leb_spec 0 e) as [_|H]; [ring|lia].
Qed.

(** [toFixed(2)] on some values whose decimal writing ends in 5: the
    binary64 value decides, not the decimal writing. *)
Example toFixed2_samples :
  map toFixed2 [1.005; 8.345; 0.125; 2.675; -2.675; -0.001; 1e21]%float
  = [1; 8.35; 0.13; 2.67; -2.67; -0; 1e21]%float.
Proof. vm_compute. reflexivity. Qed.

End RoundingProperties.

(* ------------------------------------------------------------------ *)
(** ** The fee calculation *)

Module FeeProperties.
Import JS Fees.
#[local] Open Scope float_scope.

(** The fee of each recognized option. *)
Lemma deliveryFeeOf_recognized :
  deliveryFeeOf "pickup" = Num 0
  /\ deliveryFeeOf "home" = Num 4.99
  /\ deliveryFeeOf "farmers-market" = Num 1.99.
Proof. repeat split; vm_compute; reflexivity. Qed.

(** A key that is neither in the table nor inherited reads as [undefined]. *)
Lemma get_not_inherited (o : list (string * number)) (key : string) :
  inherited key = false -> own o key = None -> get o key = Undefined.
Proof. intros Hi Ho. unfold get. now rewrite Ho, Hi. Qed.

(** Whatever the table holds for a key that [Object.prototype] does not
    define, the fee is a number. *)
Lemma deliveryFeeOf_number (deliveryOption : string) :
  inherited deliveryOption = false ->
  exists d, deliveryFeeOf deliveryOption = Num d.
Proof.
  intros Hi. unfold deliveryFeeOf, get.
  destruct (own deliveryFees deliveryOption) as [v|].
  - unfold or_else. destruct (truthy (Num v)); eauto.
  - rewrite Hi. unfold or_else. simpl. eauto.
Qed.

(** An inherited key reads as the inherited function, which is truthy. *)
Lemma deliveryFeeOf_inherited (deliveryOption : string) :
  inherited deliveryOption = true -> deliveryFeeOf deliveryOption = Obj.
Proof.
  intros Hi. unfold deliveryFeeOf, get.
  assert (Ho : own deliveryFees deliveryOption = None).
  { unfold deliveryFees, own.
    destruct (String.eqb_spec deliveryOption "pickup") as [->|_]; [discriminate Hi|].
    destruct (String.eqb_spec deliveryOption "farmers-market") as [->|_]; [discriminate Hi|].
    destruct (String.eqb_spec deliveryOption "home") as [->|_]; [discriminate Hi|].
    reflexivity. }
  now rewrite Ho, Hi.
Qed.

(** On numbers [calculateFees] returns, with the three roundings below. *)
Lemma calculateFees_numbers (s d : number) :
  calculateFees (Num s) (Num d)
  = Return (mkFees
      (toFixed2 (s * PLATFORM_FEE_RATE))
      (toFixed2 ((s + d) * STRIPE_FEE_RATE + STRIPE_FIXED_FEE))
      (toFixed2 (s + s * PLATFORM_FEE_RATE
                 + ((s + d) * STRIPE_FEE_RATE + STRIPE_FIXED_FEE) + d))).
Proof. reflexivity. Qed.

(** With a delivery fee that is not a number the total is a string, and
    [total.toFixed] is not a function. *)
Lemma calculateFees_not_a_number (s : number) :
  calculateFees (Num s) Obj = Throw (TypeError "total.toFixed is not a function").
Proof. reflexivity. Qed.

(** The response of the route when the fee read from the table is a number. *)
Lemma post_calculate_fees_number (s d : number) (deliveryOption : string) :
  deliveryFeeOf deliveryOption = Num d ->
  post_calculate_fees (Num s) deliveryOption
  = Json (mkFeeCalculation (Num s) (Num d)
      (toFixed2 (s * 0.05))
      (toFixed2 ((s + d) * 0.029 + 0.30))
      (toFixed2 (s + s * 0.05 + ((s + d) * 0.029 + 0.30) + d))).
Proof.
  intros Hd. unfold post_calculate_fees. rewrite Hd, calculateFees_numbers.
  reflexivity.
Qed.

(** C2, as the program computes it: for subtotal 100 and pickup the route
    answers platformFee 5.00, processingFee 3.20 (2.9% of 100 plus 0.30),
    deliveryFee 0 and total 108.20. *)
Theorem fees_of_100_pickup :
  post_calculate_fees (Num 100) "pickup"
  = Json (mkFeeCalculation (Num 100) (Num 0) 5 3.2 108.2).
Proof.
  rewrite (post_calculate_fees_number 100 0 "pickup") by (vm_compute; reflexivity).
  vm_compute. reflexivity.
Qed.

(** C2, as the specification words it, fails: the processing fee is not
    3.30 and the total is not 108.30. *)
Lemma fees_of_100_pickup_not_3_30 :
  exists r, post_calculate_fees (Num 100) "pickup" = Json r
    /\ (fc_processingFee r =? 3.30) = false
    /\ (fc_total r =? 108.30) = false.
Proof.
  eexists. split.
  - rewrite (post_calculate_fees_number 100 0 "pickup") by (vm_compute; reflexivity).
    reflexivity.
  - split; vm_compute; reflexivity.
Qed.

(** C1, amended: for every subtotal and recognized delivery option, the
    platform fee and the processing fee are each rounded to two decimals,
    and the total is the rounding to two decimals of the sum of the
    subtotal, the two fees before their rounding, and the delivery fee. *)
Theorem total_rounds_the_unrounded_sum (s : number) (deliveryOption : string) :
  recognized deliveryOption ->
  exists d,
    deliveryFeeOf deliveryOption = Num d
    /\ post_calculate_fees (Num s) deliveryOption
       = Json (mkFeeCalculation (Num s) (Num d)
           (toFixed2 (s * 0.05))
           (toFixed2 ((s + d) * 0.029 + 0.30))
           (toFixed2 (s + s * 0.05 + ((s + d) * 0.029 + 0.30) + d))).
Proof.
  destruct deliveryFeeOf_recognized as (Hp & Hh & Hf).
  intros [-> | [-> | ->]]; eexists; (split; [eassumption|]);
    now apply post_calculate_fees_number.
Qed.

Lemma total_rounds_the_unrounded_sum_witness :
  recognized "home"
  /\ exists d,
       deliveryFeeOf "home" = Num d
       /\ post_calculate_fees (Num 50) "home"
          = Json (mkFeeCalculation (Num 50) (Num d)
              (toFixed2 (50 * 0.05))
              (toFixed2 ((50 + d) * 0.029 + 0.30))
              (toFixed2 (50 + 50 * 0.05 + ((50 + d) * 0.029 + 0.30) + d))).
Proof.
  split.
  - right; left; reflexivity.
  - apply (total_rounds_the_unrounded_sum 50 "home"). right; left; reflexivity.
Defined.

(** C1, as stated, fails: for a subtotal of 0.08 with pickup the fees round
    to 0.00 and 0.30, whose sum with the subtotal is 0.38, and the total
    is 0.39. *)
Lemma total_is_not_the_sum_of_rounded_fees :
  exists r,
    post_calculate_fees (Num 0.08) "pickup" = Json r
    /\ fc_platformFee r = 0
    /\ fc_processingFee r = 0.3
    /\ fc_total r = 0.39
    /\ components_sum r = Num 0.38
    /\ (0.39 =? 0.38) = false.
Proof.
  eexists. split.
  - rewrite (post_calculate_fees_number 0.08 0 "pickup") by (vm_compute; reflexivity).
    reflexivity.
  - repeat split; vm_compute; reflexivity.
Qed.

(** C4, amended: a negative subtotal is not rejected.  With any delivery
    option that [Object.prototype] does not define, the route answers with
    the fee breakdown the formulas give on that subtotal. *)
Theorem negative_subtotal_is_priced (s : number) (deliveryOption : string) :
  (s <? 0) = true ->
  inherited deliveryOption = false ->
  exists d,
    deliveryFeeOf deliveryOption = Num d
    /\ post_calculate_fees (Num s) deliveryOption
       = Json (mkFeeCalculation (Num s) (Num d)
           (toFixed2 (s * 0.05))
           (toFixed2 ((s + d) * 0.029 + 0.30))
           (toFixed2 (s + s * 0.05 + ((s + d) * 0.029 + 0.30) + d))).
Proof.
  intros _ Hi. destruct (deliveryFeeOf_number deliveryOption Hi) as [d Hd].
  exists d. split; [exact Hd|]. now apply post_calculate_fees_number.
Qed.

Lemma negative_subtotal_is_priced_witness :
  (-10 <? 0) = true
  /\ inherited "home" = false
  /\ exists d,
       deliveryFeeOf "home" = Num d
       /\ post_calculate_fees (Num (-10)) "home"
          = Json (mkFeeCalculation (Num (-10)) (Num d)
              (toFixed2 (-10 * 0.05))
              (toFixed2 ((-10 + d) * 0.029 + 0.30))
              (toFixed2 (-10 + -10 * 0.05 + ((-10 + d) * 0.029 + 0.30) + d))).
Proof.
  split; [reflexivity|]. split; [reflexivity|].
  apply (negative_subtotal_is_priced (-10) "home"); reflexivity.
Defined.

(** C4, as stated, fails: a subtotal of -10 with pickup is answered with a
    fee breakdown, not with an error. *)
Lemma negative_subtotal_is_not_rejected :
  (-10 <? 0) = true
  /\ post_calculate_fees (Num (-10)) "pickup"
     = Json (mkFeeCalculation (Num (-10)) (Num 0) (-0.5) 0.01 (-10.49)).
Proof.
  split; [reflexivity|].
  rewrite (post_calculate_fees_number (-10) 0 "pickup") by (vm_compute; reflexivity).
  vm_compute. reflexivity.
Qed.

(** C5, at the delivery option ["toString"]: the table lookup finds the
    function inherited from [Object.prototype], the total becomes a string,
    and the route answers 400 instead of a breakdown with a zero fee. *)
Theorem inherited_option_is_an_error :
  deliveryFeeOf "toString" = Obj
  /\ post_calculate_fees (Num 100) "toString"
     = Fees.Status400 "total.toFixed is not a function".
Proof. split; vm_compute; reflexivity. Qed.

(** An option that is neither in the table nor defined by
    [Object.prototype] costs nothing. *)
Lemma deliveryFeeOf_unknown (deliveryOption : string) :
  inherited deliveryOption = false ->
  ~ recognized deliveryOption ->
  deliveryFeeOf deliveryOption = Num 0.
Proof.
  intros Hi Hn. unfold deliveryFeeOf.
  rewrite get_not_inherited; [reflexivity | exact Hi |].
  unfold deliveryFees, own, recognized in *.
  destruct (String.eqb_spec deliveryOption "pickup"); [tauto|].
  destruct (String.eqb_spec deliveryOption "farmers-market"); [tauto|].
  destruct (String.eqb_spec deliveryOption "home"); [tauto|].
  reflexivity.
Qed.

End FeeProperties.

(* ------------------------------------------------------------------ *)
(** ** The cart *)

Module CartProperties.
Import JS Storage.

Lemma same_pair_true (u p : string) (c : CartItem) :
  same_pair u p c = true <-> pair_of c = (u, p).
Proof.
  unfold same_pair, pair_of. rewrite andb_true_iff, !String.eqb_eq.
  split; [intros [-> ->]; reflexivity | intros [= -> ->]; auto].
Qed.

Lemma pair_of_set_quantity (q : Z) (c : CartItem) :
  pair_of (set_quantity q c) = pair_of c.
Proof. reflexivity. Qed.

(** An update of quantities changes no (user, product). *)
Lemma pairs_update_quantity (i : string) (q : Z) (rows : list CartItem) :
  map pair_of (update_quantity i q rows) = map pair_of rows.
Proof.
  unfold update_quantity. rewrite map_map. apply map_ext.
  intros c. now destruct (String.eqb (cart_id c) i).
Qed.

Section ListFacts.
Context {A B : Type} (f : A -> B).

Lemma NoDup_map_filter (g : A -> bool) (l : list A) :
  NoDup (map f l) -> NoDup (map f (filter g l)).
Proof.
  induction l as [|a l IH]; simpl; intros H; [exact H|].
  inversion H as [|? ? Hnotin Hrest]; subst.
  destruct (g a); simpl; [|now apply IH].
  constructor; [|now apply IH].
  intros Hin. apply Hnotin.
  apply in_map_iff in Hin as (b & Hb & Hin).
  apply filter_In in Hin as [Hin _].
  apply in_map_iff. now exists b.
Qed.

Lemma NoDup_map_injective (l : list A) (a b : A) :
  NoDup (map f l) -> In a l -> In b l -> f a = f b -> a = b.
Proof.
  induction l as [|c l IH]; simpl; intros H Ha Hb Hab; [contradiction|].
  inversion H as [|? ? Hnotin Hrest]; subst.
  destruct Ha as [-> | Ha], Hb as [-> | Hb].
  - reflexivity.
  - exfalso. apply Hnotin. rewrite Hab. now apply in_map.
  - exfalso. apply Hnotin. rewrite <- Hab. now apply in_map.
  - now apply IH.
Qed.

Lemma NoDup_map_snoc (l : list A) (a : A) :
  NoDup (map f l) -> ~ In (f a) (map f l) -> NoDup (map f (l ++ [a])).
Proof.
  intros H Hnotin. rewrite map_app. simpl.
  apply (Permutation_NoDup (l := f a :: map f l)).
  - apply Permutation_cons_append.
  - now constructor.
Qed.

End ListFacts.

(** No row of the pair means the pair is absent from the table. *)
Lemma no_existing_row (u p : string) (rows : list CartItem) :
  filter (same_pair u p) rows = [] -> ~ In (u, p) (map pair_of rows).
Proof.
  intros Hnil Hin. apply in_map_iff in Hin as (c & Hc & Hin).
  assert (Hf : In c (filter (same_pair u p) rows)).
  { apply filter_In. split; [exact Hin|]. now apply same_pair_true. }
  rewrite Hnil in Hf. exact Hf.
Qed.

Lemma update_quantity_absent (i : string) (q : Z) (rows : list CartItem) :
  ~ In i (map cart_id rows) -> update_quantity i q rows = rows.
Proof.
  induction rows as [|c rows IH]; simpl; intros H; [reflexivity|].
  destruct (String.eqb_spec (cart_id c) i) as [Heq|_]; [tauto|].
  f_equal. apply IH. tauto.
Qed.

Lemma ids_update_quantity (i : string) (q : Z) (rows : list CartItem) :
  map cart_id (update_quantity i q rows) = map cart_id rows.
Proof.
  unfold update_quantity. rewrite map_map. apply map_ext.
  intros c. now destruct (String.eqb (cart_id c) i).
Qed.

Lemma rows_of_absent_id (i : string) (rows : list CartItem) :
  ~ In i (map cart_id rows) ->
  filter (fun c => String.eqb (cart_id c) i) rows = [].
Proof.
  induction rows as [|a rows IH]; simpl; intros H; [reflexivity|].
  destruct (String.eqb_spec (cart_id a) i); [tauto|]. apply IH. tauto.
Qed.

(** With unique ids, the rows of the id of [c] after an update are the
    updated [c] alone. *)
Lemma rows_of_updated_id (c : CartItem) (q : Z) (rows : list CartItem) :
  NoDup (map cart_id rows) ->
  In c rows ->
  filter (fun c0 => String.eqb (cart_id c0) (cart_id c))
    (update_quantity (cart_id c) q rows)
  = [set_quantity q c].
Proof.
  induction rows as [|a rows IH]; simpl; intros Hnd Hin; [contradiction|].
  inversion Hnd as [|? ? Hnotin Hnd']; subst.
  change (map _ rows) with (update_quantity (cart_id c) q rows).
  destruct Hin as [-> | Hin].
  - rewrite String.eqb_refl. simpl. rewrite String.eqb_refl. f_equal.
    rewrite update_quantity_absent by exact Hnotin.
    now apply rows_of_absent_id.
  - destruct (String.eqb_spec (cart_id a) (cart_id c)) as [Heq|Hne].
    + exfalso. apply Hnotin. rewrite Heq. now apply in_map.
    + simpl. destruct (String.eqb_spec (cart_id a) (cart_id c)); [contradiction|].
      now apply IH.
Qed.

(** The quantities the program writes fit the column, or the statement is
    rejected. *)
Lemma is_int4_spec (q : Z) :
  is_int4 q = true <-> (-2147483648 <= q <= 2147483647)%Z.
Proof. unfold is_int4. rewrite andb_true_iff, !Z.leb_le. tauto. Qed.

(** A row is accepted only under an id that no row carries. *)
Lemma accepted_id_is_new (users : list string) (products : list Product)
  (rows : list CartItem) (c : CartItem) :
  accepts_cart_row users products rows c = true ->
  ~ In (cart_id c) (map cart_id rows).
Proof.
  unfold accepts_cart_row. intros H Hin.
  apply andb_true_iff in H as [_ H]. apply negb_true_iff in H.
  apply in_map_iff in Hin as (c' & Hid & Hin).
  assert (Hex : existsb (fun c' => String.eqb (cart_id c') (cart_id c)) rows = true).
  { apply existsb_exists. exists c'. split; [exact Hin|]. now apply String.eqb_eq. }
  congruence.
Qed.

Lemma addToCart_invariant (uuid : string) (now : Z) (item : InsertCartItem)
  (users : list string) (products : list Product) (rows : list CartItem) :
  cart_invariant rows ->
  cart_invariant (cart_step users products rows (AddToCart uuid now item)).
Proof.
  unfold cart_invariant, pairs_unique. intros [Hp Hi]. simpl. unfold addToCart.
  destruct (filter _ rows) as [|e existing] eqn:Hex.
  - destruct (accepts_cart_row _ _ _ _) eqn:Hacc; [|now split].
    split.
    + apply NoDup_map_snoc; [exact Hp|]. now apply no_existing_row.
    + apply NoDup_map_snoc; [exact Hi|].
      exact (accepted_id_is_new _ _ _ _ Hacc).
  - destruct (is_int4 _); [|now split].
    now rewrite pairs_update_quantity, ids_update_quantity.
Qed.

(** Every request on the cart keeps the invariant. *)
Lemma cart_step_invariant (users : list string) (products : list Product)
  (rows : list CartItem) (op : cart_op) :
  cart_invariant rows -> cart_invariant (cart_step users products rows op).
Proof.
  intros H. destruct op as [uuid now item | i q | i | userId].
  - now apply addToCart_invariant.
  - simpl. unfold updateCartItem.
    destruct (is_int4 q); [|exact H].
    destruct (filter _ (update_quantity i q rows)); [exact H|].
    unfold cart_invariant, pairs_unique.
    now rewrite pairs_update_quantity, ids_update_quantity.
  - destruct H as [Hp Hi]. split; now apply NoDup_map_filter.
  - destruct H as [Hp Hi]. split; now apply NoDup_map_filter.
Qed.

Lemma fold_cart_step_invariant (users : list string) (products : list Product)
  (ops : list cart_op) (rows : list CartItem) :
  cart_invariant rows ->
  cart_invariant (fold_left (cart_step users products) ops rows).
Proof.
  revert rows. induction ops as [|op ops IH]; simpl; intros rows H; [exact H|].
  apply IH. now apply cart_step_invariant.
Qed.

(** With unique pairs, the row [addToCart] finds for a pair is the row of
    that pair. *)
Lemma existing_row (rows : list CartItem) (item : InsertCartItem) (e : CartItem) :
  pairs_unique rows ->
  In e rows ->
  pair_of e = (ins_userId item, ins_productId item) ->
  filter (same_pair (ins_userId item) (ins_productId item)) rows = [e].
Proof.
  intros Hu Hin Hpair.
  assert (Hnd : NoDup (map pair_of
                         (filter (same_pair (ins_userId item) (ins_productId item))
                            rows)))
    by now apply NoDup_map_filter.
  assert (Hall : forall c,
            In c (filter (same_pair (ins_userId item) (ins_productId item)) rows) ->
            c = e).
  { intros c Hc. apply filter_In in Hc as [Hc Hsame].
    apply same_pair_true in Hsame.
    apply (NoDup_map_injective pair_of rows); auto. congruence. }
  assert (He : In e (filter (same_pair (ins_userId item) (ins_productId item)) rows))
    by (apply filter_In; split; [exact Hin | now apply same_pair_true]).
  destruct (filter _ rows) as [|a [|b l]]; [destruct He| |].
  - f_equal. apply Hall. now left.
  - exfalso. simpl in Hnd. inversion Hnd as [|? ? Hnotin _]; subst.
    apply Hnotin. left.
    rewrite (Hall a) by now left. now rewrite (Hall b) by (right; now left).
Qed.

(** With unique ids, an update of the row of an id leaves the other rows
    as they are. *)
Lemma update_quantity_others (e : CartItem) (q : Z) (rows : list CartItem)
  (c : CartItem) :
  NoDup (map cart_id rows) ->
  In e rows -> In c rows -> c <> e ->
  In c (update_quantity (cart_id e) q rows).
Proof.
  intros Hnd He Hc Hne. unfold update_quantity. apply in_map_iff.
  exists c. split; [|exact Hc].
  destruct (String.eqb_spec (cart_id c) (cart_id e)) as [Heq|_]; [|reflexivity].
  exfalso. apply Hne. now apply (NoDup_map_injective cart_id rows).
Qed.

(** C9: after any sequence of cart requests there is at most one row for
    each (user, product), and one for each id, and [addToCart] keeps it
    so.  On such a cart, when a row holds the user and the product of the
    item, [addToCart] creates no row: the row keeps its id, its user, its
    product and its creation time, its quantity becomes the former
    quantity plus the quantity added, it is the only row of the pair and
    the row returned, and the other rows stay as they are; when the sum
    does not fit the integer column, the statement is rejected.  When no
    row holds the user and the product, [addToCart] appends one row with
    the quantity of the item, if PostgreSQL accepts it. *)
Theorem addToCart_one_row_per_pair (users : list string)
  (products : list Product) (ops : list cart_op) (uuid : string) (now : Z)
  (item : InsertCartItem) (rows : list CartItem) :
  cart_invariant (cart_after users products ops)
  /\ (cart_invariant rows ->
      cart_invariant (cart_step users products rows (AddToCart uuid now item))
      /\ (forall e,
            In e rows ->
            cart_userId e = ins_userId item ->
            cart_productId e = ins_productId item ->
            if is_int4 (quantity e + ins_quantity item)
            then
              exists rows' e',
                addToCart uuid now item users products rows
                = Return (rows', Some e')
                /\ map cart_id rows' = map cart_id rows
                /\ In e' rows'
                /\ cart_id e' = cart_id e
                /\ cart_userId e' = cart_userId e
                /\ cart_productId e' = cart_productId e
                /\ cart_createdAt e' = cart_createdAt e
                /\ quantity e' = (quantity e + ins_quantity item)%Z
                /\ filter (same_pair (ins_userId item) (ins_productId item)) rows'
                   = [e']
                /\ (forall c, In c rows -> c <> e -> In c rows')
            else
              addToCart uuid now item users products rows = Throw rejected)
      /\ ((forall e,
             In e rows -> pair_of e <> (ins_userId item, ins_productId item)) ->
          let c :=
            mkCartItem uuid (ins_userId item) (ins_productId item)
              (ins_quantity item) now in
          addToCart uuid now item users products rows
          = if accepts_cart_row users products rows c
            then Return (rows ++ [c], Some c)
            else Throw rejected)).
Proof.
  split.
  { apply fold_cart_step_invariant. split; constructor. }
  intros Hinv. split; [now apply addToCart_invariant|].
  destruct Hinv as [Hu Hi]. split.
  - intros e Hin Huser Hproduct.
    assert (Hpair : pair_of e = (ins_userId item, ins_productId item))
      by (unfold pair_of; congruence).
    assert (Hex := existing_row rows item e Hu Hin Hpair).
    unfold addToCart. rewrite Hex.
    destruct (is_int4 (quantity e + ins_quantity item)); [|reflexivity].
    set (q := (quantity e + ins_quantity item)%Z).
    exists (update_quantity (cart_id e) q rows), (set_quantity q e).
    rewrite (rows_of_updated_id e q rows Hi Hin).
    split; [reflexivity|].
    split; [apply ids_update_quantity|].
    assert (Hin' : In (set_quantity q e) (update_quantity (cart_id e) q rows)).
    { unfold update_quantity. apply in_map_iff.
      exists e. split; [|exact Hin]. now rewrite String.eqb_refl. }
    split; [exact Hin'|].
    do 5 (split; [reflexivity|]).
    split.
    + apply (existing_row (update_quantity (cart_id e) q rows) item
               (set_quantity q e)).
      * unfold pairs_unique. now rewrite pairs_update_quantity.
      * exact Hin'.
      * exact Hpair.
    + intros c Hc Hne. now apply update_quantity_others.
  - intros Hnone c. unfold addToCart.
    assert (Hnil : filter (same_pair (ins_userId item) (ins_productId item)) rows
                   = []).
    { destruct (filter _ rows) as [|e l] eqn:Hf; [reflexivity|exfalso].
      assert (He : In e (filter (same_pair (ins_userId item) (ins_productId item))
                           rows)) by (rewrite Hf; now left).
      apply filter_In in He as [He Hsame]. apply same_pair_true in Hsame.
      exact (Hnone e He Hsame). }
    now rewrite Hnil.
Qed.

(** The theorem at work: adding 2 then 3 of the same product leaves one row
    of 5; another product gets a row of its own; a product that is not in
    the table, a quantity that does not fit the column and a sum that does
    not fit it are rejected and leave the cart as it is. *)
Example add_twice :
  let eggs := mkProduct "eggs" "farm" "Eggs" None "dairy" 450 None (Some true) 100 in
  let milk := mkProduct "milk" "farm" "Milk" None "dairy" 250 None (Some true) 200 in
  cart_after ["ann"] [eggs; milk]
    [ AddToCart "c1" 10 (mkInsertCartItem "ann" "eggs" 2);
      AddToCart "c2" 20 (mkInsertCartItem "ann" "milk" 1);
      AddToCart "c3" 30 (mkInsertCartItem "ann" "eggs" 3);
      AddToCart "c4" 40 (mkInsertCartItem "ann" "beer" 1);
      AddToCart "c5" 50 (mkInsertCartItem "bob" "eggs" 1);
      AddToCart "c6" 60 (mkInsertCartItem "ann" "milk" 2147483647) ]
  = [ mkCartItem "c1" "ann" "eggs" 5 10; mkCartItem "c2" "ann" "milk" 1 20 ].
Proof. reflexivity. Qed.

End CartProperties.

(* ------------------------------------------------------------------ *)
(** ** Checkout *)

Module CheckoutProperties.
Import JS Fees Storage Checkout.
#[local] Open Scope float_scope.

(** The run of the [try] block on a cart that is not empty, with a numeric
    delivery fee: the statements apply in order up to the one that fails. *)
Lemma try_post_orders_run (e : env) (userId : string) (b : body) (d : db)
  (ci : CartItemWithProduct) (cis : list CartItemWithProduct) (fee : number) :
  getCartItems userId d = ci :: cis ->
  deliveryFeeOf (deliveryOption b) = Num fee ->
  let o := order_of e userId b (ci :: cis) fee in
  let d1 := with_order o d in
  let d2 := with_items e o (ci :: cis) d1 in
  try_post_orders e userId b d
  = match fault e with
    | Some GetCartItems | Some CreateOrder => (d, Throw db_error)
    | Some AddOrderItems => (d1, Throw db_error)
    | Some ClearCart => (d2, Throw db_error)
    | None => (clearCart_db userId d2, Return (Ok o))
    end.
Proof.
  intros Hcart Hfee o d1 d2.
  unfold try_post_orders, rejects.
  destruct (fault e) as [[ | | | ]|]; simpl;
    rewrite ?Hcart, ?Hfee, ?FeeProperties.calculateFees_numbers; reflexivity.
Qed.

Lemma flat_map_nil {A B : Type} (f : A -> list B) (l : list A) :
  (forall a, In a l -> f a = []) -> flat_map f l = [].
Proof.
  induction l as [|a l IH]; simpl; intros H; [reflexivity|].
  rewrite (H a) by now left. apply IH. intros a' Ha'. apply H. now right.
Qed.

(** A user without cart rows has no cart items. *)
Lemma getCartItems_cleared (userId : string) (d : db) :
  getCartItems userId (clearCart_db userId d) = [].
Proof.
  unfold getCartItems, clearCart_db, clearCart. simpl.
  apply flat_map_nil. intros c Hc.
  apply filter_In in Hc as [_ Hc]. apply negb_true_iff in Hc.
  apply flat_map_nil. intros p _.
  apply flat_map_nil. intros r _.
  now rewrite Hc, andb_false_r.
Qed.



(** C3, amended: the transition is a sequence of statements without a
    transaction.  On a cart that is not empty, with a numeric delivery fee:
    an error while reading the cart or creating the order leaves the
    database as it was; an error while adding the order items leaves the
    order created, without items, and the cart as it was; an error while
    clearing the cart leaves the order and its items created and the cart
    as it was; without an error the order and its items are created and
    the cart of the user is cleared. *)
Theorem checkout_applies_statements_in_order (e : env) (userId : string)
  (b : body) (d : db) (ci : CartItemWithProduct)
  (cis : list CartItemWithProduct) (fee : number) :
  getCartItems userId d = ci :: cis ->
  deliveryFeeOf (deliveryOption b) = Num fee ->
  let o := order_of e userId b (ci :: cis) fee in
  let items :=
    orderItemsData (item_uuid e) 0 (order_id o) (map orderItemData_of (ci :: cis)) in
  let unchanged := mkDb (producers d) (products d) in
  post_orders e (Some userId) b d
  = match fault e with
    | Some GetCartItems | Some CreateOrder =>
        (d, Checkout.Status400 "database error")
    | Some AddOrderItems =>
        (unchanged (cart d) (orders d ++ [o]) (orderItems d),
         Checkout.Status400 "database error")
    | Some ClearCart =>
        (unchanged (cart d) (orders d ++ [o]) (orderItems d ++ items),
         Checkout.Status400 "database error")
    | None =>
        (unchanged (clearCart userId (cart d)) (orders d ++ [o])
           (orderItems d ++ items),
         Ok o)
    end.
Proof.
  intros Hcart Hfee o items unchanged. unfold post_orders.
  rewrite (try_post_orders_run e userId b d ci cis fee Hcart Hfee).
  destruct (fault e) as [[ | | | ]|]; reflexivity.
Qed.

Lemma checkout_applies_statements_in_order_witness :
  getCartItems "ann" Sample.shop = Sample.ann_cart
  /\ deliveryFeeOf "pickup" = Num 0
  /\ post_orders (Sample.request (Some AddOrderItems)) (Some "ann")
       Sample.pickup Sample.shop
     = (mkDb (producers Sample.shop) (products Sample.shop) (cart Sample.shop)
          (orders Sample.shop
           ++ [order_of (Sample.request (Some AddOrderItems)) "ann"
                 Sample.pickup Sample.ann_cart 0])
          (orderItems Sample.shop),
        Checkout.Status400 "database error").
Proof.
  split; [reflexivity|]. split; [reflexivity|].
  apply (checkout_applies_statements_in_order
           (Sample.request (Some AddOrderItems)) "ann" Sample.pickup Sample.shop
           (mkCartItemWithProduct Sample.ann_eggs Sample.eggs Sample.farm)
           [mkCartItemWithProduct Sample.ann_apples Sample.apples Sample.orchard]
           0); reflexivity.
Defined.

(** C3, as stated, fails: when adding the order items fails, the request
    is answered with an error and the order stays in the database. *)
Lemma checkout_is_not_atomic :
  let r := post_orders (Sample.request (Some AddOrderItems)) (Some "ann")
             Sample.pickup Sample.shop in
  snd r = Checkout.Status400 "database error"
  /\ orders Sample.shop = []
  /\ map order_id (orders (fst r)) = ["o1"]
  /\ orderItems (fst r) = []
  /\ cart (fst r) = cart Sample.shop.
Proof. repeat split. Qed.



(** The order of the sample request: 3 x 4.50 + 2 x 2.99 = 19.48, with a
    platform fee of 0.97, a processing fee of 0.86 and a total of 21.32. *)
Example sample_order :
  snd (post_orders (Sample.request None) (Some "ann") Sample.pickup Sample.shop)
  = Ok (mkOrder "o1"
          (mkInsertOrder "ann" "pending" 19.48 0.97 0.86 (Num 0) 21.32
             "pickup" None None) 2000 2000).
Proof. vm_compute. reflexivity. Qed.

End CheckoutProperties.

(* ------------------------------------------------------------------ *)
(** ** Ordering of rows *)

Module OrderProperties.
Import Storage.

Section OrderBy.
Context {A : Type} (le : A -> A -> bool).

Lemma insert_by_permutation (a : A) (l : list A) :
  Permutation (insert_by le a l) (a :: l).
Proof.
  induction l as [|b l IH]; simpl; [reflexivity|].
  destruct (le a b); [reflexivity|].
  transitivity (b :: a :: l); [now constructor | apply perm_swap].
Qed.

Lemma orderBy_permutation (l : list A) : Permutation (orderBy le l) l.
Proof.
  induction l as [|a l IH]; simpl; [constructor|].
  etransitivity; [apply insert_by_permutation | now constructor].
Qed.

Lemma in_orderBy (a : A) (l : list A) : In a (orderBy le l) <-> In a l.
Proof.
  split; apply Permutation_in;
    [apply orderBy_permutation | symmetry; apply orderBy_permutation].
Qed.

Lemma Forall_orderBy (P : A -> Prop) (l : list A) :
  Forall P l -> Forall P (orderBy le l).
Proof.
  rewrite !Forall_forall. intros H a Ha. apply H. now apply in_orderBy.
Qed.

Hypothesis le_total : forall a b, le a b = true \/ le b a = true.

Lemma insert_by_sorted (a : A) (l : list A) :
  Sorted (fun u v => le u v = true) l ->
  Sorted (fun u v => le u v = true) (insert_by le a l).
Proof.
  induction l as [|b l IH]; simpl; intros Hs.
  - repeat constructor.
  - destruct (le a b) eqn:Hab.
    + constructor; [exact Hs | now constructor].
    + assert (Hba : le b a = true)
        by (destruct (le_total a b) as [H|H]; congruence).
      inversion Hs as [|? ? Hl Hhd]; subst.
      constructor; [now apply IH|].
      destruct l as [|c l]; simpl; [now constructor|].
      destruct (le a c); constructor; [exact Hba|].
      now inversion Hhd.
Qed.

Lemma orderBy_sorted (l : list A) :
  Sorted (fun u v => le u v = true) (orderBy le l).
Proof.
  induction l as [|a l IH]; simpl; [constructor|].
  now apply insert_by_sorted.
Qed.

End OrderBy.

End OrderProperties.

(* ------------------------------------------------------------------ *)
(** ** Product search *)

Module SearchProperties.
Import JS Storage Search OrderProperties.
#[local] Open Scope float_scope.

Lemma flat_map_if {A B : Type} (g : A -> bool) (h : A -> B) (l : list A) :
  flat_map (fun a => if g a then [h a] else []) l = map h (filter g l).
Proof.
  induction l as [|a l IH]; simpl; [reflexivity|].
  destruct (g a); simpl; now rewrite IH.
Qed.

Lemma filter_map {A B : Type} (f : A -> B) (g : B -> bool) (l : list A) :
  filter g (map f l) = map f (filter (fun a => g (f a)) l).
Proof.
  induction l as [|a l IH]; simpl; [reflexivity|].
  destruct (g (f a)); simpl; now rewrite IH.
Qed.

Lemma Sorted_impl {A : Type} (R R' : A -> A -> Prop) (l : list A) :
  (forall a b, R a b -> R' a b) -> Sorted R l -> Sorted R' l.
Proof.
  intros HR. induction 1 as [|a l Hs IH Hhd]; constructor; [exact IH|].
  destruct Hhd; constructor; auto.
Qed.

Lemma by_recency_total (a b : ProductWithProducer) :
  by_recency a b = true \/ by_recency b a = true.
Proof. unfold by_recency. rewrite !Z.leb_le. lia. Qed.

Lemma orderBy_recency_sorted (l : list ProductWithProducer) :
  StronglySorted newest_first (orderBy by_recency l).
Proof.
  apply Sorted_StronglySorted.
  - intros a b c. unfold newest_first. lia.
  - apply (Sorted_impl (fun u v => by_recency u v = true)).
    + intros a b. unfold by_recency, newest_first. now rewrite Z.leb_le.
    + apply orderBy_sorted, by_recency_total.
Qed.

(** What is falsy for [given]: [undefined], and the numbers 0, -0 and NaN. *)
Lemma not_given :
  given None = false
  /\ given (Some 0) = false
  /\ given (Some (-0)) = false
  /\ given (Some nan) = false.
Proof. repeat split. Qed.

Section Queries.
Variable ST_Distance : point -> point -> number.
Variable ILIKE : string -> string -> bool.

#[local] Abbreviation search := (searchProducts ST_Distance ILIKE).
#[local] Abbreviation chosen := (selected ST_Distance ILIKE).

(** Under referential integrity the join has one row for each product. *)
Lemma products_of_joined (lat lng : option number) (d : db) :
  foreign_keys_hold d ->
  map product (joined ST_Distance lat lng d) = products d.
Proof.
  unfold foreign_keys_hold, joined.
  induction (products d) as [|p ps IH]; simpl; intros Hfk; [reflexivity|].
  rewrite map_app, IH by (intros q Hq; apply Hfk; now right).
  rewrite (flat_map_if (fun r => String.eqb (producerId p) (producer_id r))
             (fun r => mkProductWithProducer p r _)).
  destruct (Hfk p (or_introl eq_refl)) as [r Hr].
  unfold producers_of in Hr. now rewrite Hr.
Qed.

(** Without an origin every row of the join reports the distance 0. *)
Lemma joined_no_origin (lat lng : option number) (d : db) :
  given lat && given lng = false ->
  joined ST_Distance lat lng d = joined ST_Distance None None d
  /\ Forall (fun row => distance row = Some 0) (joined ST_Distance lat lng d).
Proof.
  intros Hg. unfold joined. rewrite Hg. simpl. split; [reflexivity|].
  apply Forall_forall. intros row Hrow.
  apply in_flat_map in Hrow as (p & _ & Hrow).
  apply in_flat_map in Hrow as (r & _ & Hrow).
  destruct (String.eqb (producerId p) (producer_id r)); [|contradiction].
  destruct Hrow as [<- | []]. reflexivity.
Qed.

(** The radius condition is pushed only when the three arguments are
    truthy. *)
Lemma within_radius_skipped (lat lng radiusKm : option number) (r : Producer) :
  given lat && given lng && given radiusKm = false ->
  within_radius ST_Distance lat lng radiusKm r = true.
Proof. unfold within_radius. now intros ->. Qed.

Lemma selected_skipped (query : string) (lat lng radiusKm : option number)
  (category0 : option string) (tags0 : option (list string))
  (row : ProductWithProducer) :
  given lat && given lng && given radiusKm = false ->
  chosen query lat lng radiusKm category0 tags0 row
  = chosen query None None None category0 tags0 row.
Proof.
  intros Hg. unfold selected. now rewrite within_radius_skipped.
Qed.

(** A search whose [lat && lng] is falsy is the search without location:
    its statement holds no cast of the location, and is answered. *)
Lemma search_no_origin (query : string) (lat lng radiusKm : option number)
  (category0 : option string) (tags0 : option (list string)) (d : db) :
  given lat && given lng = false ->
  search query lat lng radiusKm category0 tags0 d
  = Return
      (orderBy by_recency
         (filter (chosen query None None None category0 tags0)
            (joined ST_Distance None None d))).
Proof.
  intros Hg. unfold searchProducts, answer. rewrite Hg.
  destruct (joined_no_origin lat lng d Hg) as [-> _].
  do 2 f_equal. apply filter_ext. intros row.
  apply selected_skipped. now rewrite Hg.
Qed.


(** The rows of the search without location: newest first, distances 0. *)
Lemma rows_no_origin (query : string) (category0 : option string)
  (tags0 : option (list string)) (d : db) :
  let rows :=
    orderBy by_recency
      (filter (chosen query None None None category0 tags0)
         (joined ST_Distance None None d)) in
  StronglySorted newest_first rows
  /\ Forall (fun row => distance row = Some 0) rows.
Proof.
  split; [apply orderBy_recency_sorted|].
  apply Forall_orderBy. apply Forall_forall. intros row Hrow.
  apply filter_In in Hrow as [Hrow _].
  destruct (joined_no_origin None None d eq_refl) as [_ H0].
  now apply (proj1 (Forall_forall _ _) H0).
Qed.

(** C8, amended: with an empty query, no origin, no category and no tags,
    the products returned are exactly the available products, each once,
    newest first (and every row reports the distance 0). *)
Theorem search_without_filters (radiusKm : option number) (d : db) :
  foreign_keys_hold d ->
  exists rows,
    search "" None None radiusKm None None d = Return rows
    /\ Permutation (map product rows) (filter is_available (products d))
    /\ StronglySorted newest_first rows
    /\ Forall (fun row => distance row = Some 0) rows.
Proof.
  intros Hfk.
  exists (orderBy by_recency
            (filter (chosen "" None None None None None)
               (joined ST_Distance None None d))).
  split; [now apply search_no_origin|].
  split; [|apply rows_no_origin].
  rewrite (filter_ext (chosen "" None None None None None)
             (fun row => is_available (product row)))
    by (intros row; unfold selected; simpl; now rewrite !andb_true_r).
  rewrite <- (products_of_joined None None d Hfk).
  rewrite filter_map. apply Permutation_map, orderBy_permutation.
Qed.


End Queries.

Lemma shop_foreign_keys : foreign_keys_hold Sample.shop.
Proof.
  intros p [<- | [<- | [<- | []]]]; eexists; reflexivity.
Qed.

Lemma search_without_filters_witness :
  foreign_keys_hold Sample.shop
  /\ exists rows,
       searchProducts plane_distance ilike "" None None None None None
         Sample.shop = Return rows
       /\ Permutation (map product rows)
            (filter is_available (products Sample.shop))
       /\ StronglySorted newest_first rows
       /\ Forall (fun row => distance row = Some 0) rows.
Proof.
  split; [exact shop_foreign_keys|].
  apply (search_without_filters plane_distance ilike None Sample.shop).
  exact shop_foreign_keys.
Defined.

(** C8, as stated, fails: with an empty query and no origin, a category
    still filters; the available eggs are not returned for "fruits". *)
Lemma category_still_filters :
  fmap (map (fun row => name (product row)))
    (searchProducts plane_distance ilike "" None None None (Some "fruits") None
       Sample.shop)
  = Return ["Apples"]
  /\ map name (filter is_available (products Sample.shop)) = ["Eggs"; "Apples"].
Proof. split; reflexivity. Qed.


(** The guard at a latitude of 0: no radius condition, newest first,
    distances 0. *)
Example search_at_the_equator :
  fmap
    (map (fun row => (name (product row), createdAt (product row), distance row)))
    (searchProducts plane_distance ilike "" (Some 0) (Some 10) (Some 5)
       None None Sample.shop)
  = Return [("Apples", 200%Z, Some 0); ("Eggs", 100%Z, Some 0)].
Proof. vm_compute. reflexivity. Qed.

(** C6, at the origin (0, 10) with a radius of 5 km: the latitude 0 is
    falsy, the radius condition is not pushed, and the search returns the
    products of producers about 5000 km away. *)
Theorem zero_latitude_skips_the_radius :
  fmap (map (fun row => (name (product row), location (producer row))))
    (searchProducts plane_distance ilike "" (Some 0) (Some 10) (Some 5)
       None None Sample.shop)
  = Return [("Apples", Some (mkPoint 10 46)); ("Eggs", Some (mkPoint 10 45))]
  /\ ST_DWithin plane_distance (mkPoint 10 0) (mkPoint 10 46) (5 * 1000) = false
  /\ ST_DWithin plane_distance (mkPoint 10 0) (mkPoint 10 45) (5 * 1000) = false
  /\ plane_distance (mkPoint 10 0) (mkPoint 10 45) = 5003775.
Proof. repeat split; vm_compute; reflexivity. Qed.

End SearchProperties.

(* ------------------------------------------------------------------ *)
(** ** Fees and payments, in cents *)

Module CentsProperties.
Import JS Fees Storage Payments Cents.
#[local] Open Scope Z_scope.

Lemma holds_from_count (count : nat) (c : Z) (f : Z -> bool) :
  holds_from count c f = true ->
  forall k, c <= k < c + Z.of_nat count -> f k = true.
Proof.
  revert c. induction count as [|count IH]; intros c H k Hk; [lia|].
  simpl in H. apply andb_true_iff in H as [Hc H].
  destruct (Z.eq_dec k c) as [->|Hne]; [exact Hc|].
  apply (IH (c + 1)); [exact H | lia].
Qed.

Lemma holds_from_spec (n c : Z) (f : Z -> bool) :
  holds_from (Z.to_nat n) c f = true ->
  forall k, c <= k < c + n -> f k = true.
Proof.
  intros H k Hk. apply (holds_from_count _ _ _ H). lia.
Qed.

Lemma fees_check_pickup :
  holds_from (Z.to_nat 3001) 0 (fees_check "pickup") = true.
Proof. vm_cast_no_check (eq_refl true). Qed.

Lemma fees_check_home :
  holds_from (Z.to_nat 3001) 0 (fees_check "home") = true.
Proof. vm_cast_no_check (eq_refl true). Qed.

Lemma fees_check_farmers_market :
  holds_from (Z.to_nat 3001) 0 (fees_check "farmers-market") = true.
Proof. vm_cast_no_check (eq_refl true). Qed.

Lemma intent_check_all : holds_from (Z.to_nat 20001) 0 intent_check = true.
Proof. vm_cast_no_check (eq_refl true). Qed.

(** For every subtotal of whole cents from 0.00 to 30.00 and every
    recognized delivery option, the fee route answers a total that is a
    whole number of cents, is not below the subtotal, differs by at most
    one cent from the sum of the subtotal, the two rounded fees and the
    delivery fee, and is at least the subtotal plus the delivery fee plus
    the fixed 0.30. *)
Theorem fees_within_a_cent (c : Z) (deliveryOption : string) :
  0 <= c <= 3000 ->
  recognized deliveryOption ->
  exists r d,
    post_calculate_fees (Num (Number_of_decimal c)) deliveryOption = Json r
    /\ fc_deliveryFee r = Num d
    /\ (Number_of_decimal c <=? fc_total r)%float = true
    /\ Number_of_decimal (cents (fc_total r)) = fc_total r
    /\ Z.abs (cents (fc_total r)
              - (c + cents (fc_platformFee r) + cents (fc_processingFee r)
                 + cents d)) <= 1
    /\ c + cents d + 30 <= cents (fc_total r).
Proof.
  intros Hc Hopt.
  assert (Hcheck : fees_check deliveryOption c = true).
  { destruct Hopt as [-> | [-> | ->]];
      [ apply (holds_from_spec _ _ _ fees_check_pickup)
      | apply (holds_from_spec _ _ _ fees_check_home)
      | apply (holds_from_spec _ _ _ fees_check_farmers_market) ]; lia. }
  unfold fees_check in Hcheck. cbv zeta in Hcheck.
  destruct (post_calculate_fees _ _) as [r|]; [|discriminate].
  destruct (fc_deliveryFee r) as [ |d| | ] eqn:Hd; try discriminate.
  exists r, d.
  apply andb_true_iff in Hcheck as [Hcheck H4].
  apply andb_true_iff in Hcheck as [Hcheck H3].
  apply andb_true_iff in Hcheck as [H1 H2].
  apply Leibniz.eqb_spec in H2.
  apply Z.leb_le in H3, H4.
  repeat split; assumption.
Qed.

Lemma fees_within_a_cent_witness :
  0 <= 1948 <= 3000
  /\ recognized "home"
  /\ exists r d,
       post_calculate_fees (Num (Number_of_decimal 1948)) "home" = Json r
       /\ fc_deliveryFee r = Num d
       /\ (Number_of_decimal 1948 <=? fc_total r)%float = true
       /\ Number_of_decimal (cents (fc_total r)) = fc_total r
       /\ Z.abs (cents (fc_total r)
                 - (1948 + cents (fc_platformFee r) + cents (fc_processingFee r)
                    + cents d)) <= 1
       /\ 1948 + cents d + 30 <= cents (fc_total r).
Proof.
  split; [lia|]. split; [right; left; reflexivity|].
  apply (fees_within_a_cent 1948 "home"); [lia | right; left; reflexivity].
Defined.

(** For every amount of whole cents from 0.00 to 200.00, the payment
    intent is created for exactly that number of cents, in CAD, for the
    order and the user of the request. *)
Theorem intent_amount_in_cents (c : Z) (userId : string)
  (orderId : option string) :
  0 <= c <= 20000 ->
  intent_params userId (Num (Number_of_decimal c)) orderId
  = mkPaymentIntentParams (Number_of_integer c) "cad" orderId userId.
Proof.
  intros Hc.
  assert (H : intent_check c = true)
    by (apply (holds_from_spec _ _ _ intent_check_all); lia).
  unfold intent_check in H. apply Leibniz.eqb_spec in H.
  unfold intent_params in *. simpl pi_amount in H.
  f_equal. exact H.
Qed.

Lemma intent_amount_in_cents_witness :
  0 <= 10820 <= 20000
  /\ intent_params "ann" (Num (Number_of_decimal 10820)) (Some "o1")
     = mkPaymentIntentParams (Number_of_integer 10820) "cad" (Some "o1") "ann".
Proof.
  split; [lia|]. apply (intent_amount_in_cents 10820 "ann" (Some "o1")). lia.
Defined.

End CentsProperties.

(* ------------------------------------------------------------------ *)
(** ** The fee route, on every input *)

Module MoreFeeProperties.
Import JS Fees FeeProperties.
#[local] Open Scope float_scope.

(** The fee read from the table, for every key. *)
Lemma deliveryFeeOf_cases (deliveryOption : string) :
  (inherited deliveryOption = true /\ deliveryFeeOf deliveryOption = Obj)
  \/ (inherited deliveryOption = false
      /\ (deliveryFeeOf deliveryOption = Num 0
          \/ deliveryFeeOf deliveryOption = Num 1.99
          \/ deliveryFeeOf deliveryOption = Num 4.99)).
Proof.
  destruct (inherited deliveryOption) eqn:Hi.
  - left. split; [reflexivity|]. now apply deliveryFeeOf_inherited.
  - right. split; [reflexivity|].
    destruct deliveryFeeOf_recognized as (Hp & Hh & Hf).
    destruct (String.eqb_spec deliveryOption "pickup") as [->|Hn1]; [now left|].
    destruct (String.eqb_spec deliveryOption "home") as [->|Hn2]; [now right; right|].
    destruct (String.eqb_spec deliveryOption "farmers-market") as [->|Hn3];
      [now right; left|].
    left. apply deliveryFeeOf_unknown; [exact Hi|].
    unfold recognized. tauto.
Qed.

(** For a numeric subtotal the fee route answers 400 exactly when the
    delivery option names a property of [Object.prototype]; every
    breakdown it answers carries a delivery fee of 0, 1.99 or 4.99. *)
Theorem fee_route_rejects_exactly_inherited_options (s : number)
  (deliveryOption : string) :
  (post_calculate_fees (Num s) deliveryOption
   = Fees.Status400 "total.toFixed is not a function"
   <-> inherited deliveryOption = true)
  /\ ((exists r, post_calculate_fees (Num s) deliveryOption = Json r)
      <-> inherited deliveryOption = false)
  /\ forall r,
       post_calculate_fees (Num s) deliveryOption = Json r ->
       fc_subtotal r = Num s
       /\ (fc_deliveryFee r = Num 0 \/ fc_deliveryFee r = Num 1.99
           \/ fc_deliveryFee r = Num 4.99).
Proof.
  destruct (deliveryFeeOf_cases deliveryOption) as [[Hi Hd] | [Hi Hd]].
  - assert (Hpost : post_calculate_fees (Num s) deliveryOption
                    = Fees.Status400 "total.toFixed is not a function")
      by (unfold post_calculate_fees; now rewrite Hd).
    rewrite Hpost, Hi. repeat split; try discriminate; auto.
    intros [r Hr]. discriminate.
  - assert (Hpost : exists d, deliveryFeeOf deliveryOption = Num d
              /\ post_calculate_fees (Num s) deliveryOption
                 = Json (mkFeeCalculation (Num s) (Num d)
                     (toFixed2 (s * 0.05)) (toFixed2 ((s + d) * 0.029 + 0.30))
                     (toFixed2 (s + s * 0.05 + ((s + d) * 0.029 + 0.30) + d)))).
    { destruct Hd as [Hd | [Hd | Hd]]; eexists; (split; [exact Hd|]);
        now apply post_calculate_fees_number. }
    destruct Hpost as (d & Hd' & Hpost). rewrite Hpost, Hi.
    split; [split; discriminate|]. split; [split; eauto|].
    intros r [= <-]. simpl. split; [reflexivity|].
    now rewrite <- Hd'.
Qed.

(** [calculateFees] throws exactly when the subtotal or the delivery fee is
    a string or an object, and then it is the rounding of the total that
    throws. *)
Theorem calculateFees_throws_on_text (subtotal deliveryFee : value) :
  let text v := v = Str \/ v = Obj in
  (calculateFees subtotal deliveryFee
   = Throw (TypeError "total.toFixed is not a function")
   <-> text subtotal \/ text deliveryFee)
  /\ ((exists f, calculateFees subtotal deliveryFee = Return f)
      <-> ~ (text subtotal \/ text deliveryFee)).
Proof.
  intros text. unfold text.
  destruct subtotal, deliveryFee; cbn; (split; split); intros H;
    first
      [ reflexivity
      | discriminate H
      | match type of H with ex _ => destruct H as [f Hf]; discriminate Hf end
      | eexists; reflexivity
      | left; left; reflexivity | left; right; reflexivity
      | right; left; reflexivity | right; right; reflexivity
      | intros [[?|?]|[?|?]]; discriminate
      | destruct H as [[?|?]|[?|?]]; discriminate
      | exfalso; apply H; tauto ].
Qed.

(** A request without subtotal is not rejected: with a delivery option
    that [Object.prototype] does not define, every fee answered is NaN. *)
Theorem missing_subtotal_is_answered_NaN (deliveryOption : string) :
  inherited deliveryOption = false ->
  exists d,
    post_calculate_fees Undefined deliveryOption
    = Json (mkFeeCalculation Undefined (Num d) nan nan nan).
Proof.
  intros Hi.
  destruct (deliveryFeeOf_cases deliveryOption) as [[Hi' _] | [_ Hd]];
    [congruence|].
  unfold post_calculate_fees.
  destruct Hd as [Hd | [Hd | Hd]]; rewrite Hd; eexists; vm_compute; reflexivity.
Qed.

Lemma missing_subtotal_is_answered_NaN_witness :
  inherited "home" = false
  /\ exists d,
       post_calculate_fees Undefined "home"
       = Json (mkFeeCalculation Undefined (Num d) nan nan nan).
Proof.
  split; [reflexivity|].
  apply (missing_subtotal_is_answered_NaN "home"). reflexivity.
Defined.

End MoreFeeProperties.

(* ------------------------------------------------------------------ *)
(** ** Cart rows by id and by pair *)

Module MoreCartProperties.
Import JS Storage CartRoutes CartProperties.
#[local] Open Scope Z_scope.

Lemma quantity_of_cons (u p : string) (c : CartItem) (rows : list CartItem) :
  quantity_of u p (c :: rows)
  = (if same_pair u p c then quantity c else 0) + quantity_of u p rows.
Proof. unfold quantity_of. simpl. now destruct (same_pair u p c). Qed.

Lemma quantity_of_app (u p : string) (rows rows' : list CartItem) :
  quantity_of u p (rows ++ rows') = quantity_of u p rows + quantity_of u p rows'.
Proof.
  induction rows as [|c rows IH]; [reflexivity|].
  simpl app. rewrite !quantity_of_cons, IH. lia.
Qed.

(** Setting the quantity of the one row of an id moves the quantity of its
    pair by the difference, and no other. *)
Lemma quantity_of_update (u p : string) (e : CartItem) (q : Z)
  (rows : list CartItem) :
  NoDup (map cart_id rows) ->
  In e rows ->
  quantity_of u p (update_quantity (cart_id e) q rows)
  = quantity_of u p rows + (if same_pair u p e then q - quantity e else 0).
Proof.
  induction rows as [|c rows IH]; simpl; intros Hnd Hin; [contradiction|].
  inversion Hnd as [|? ? Hnotin Hnd']; subst.
  rewrite !quantity_of_cons.
  destruct Hin as [-> | Hin].
  - rewrite String.eqb_refl.
    change (map _ rows) with (update_quantity (cart_id e) q rows).
    rewrite update_quantity_absent by exact Hnotin.
    change (same_pair u p (set_quantity q e)) with (same_pair u p e).
    simpl. destruct (same_pair u p e); lia.
  - destruct (String.eqb_spec (cart_id c) (cart_id e)) as [Heq|_].
    + exfalso. apply Hnotin. rewrite Heq. now apply in_map.
    + change (map _ rows) with (update_quantity (cart_id e) q rows).
      rewrite (IH Hnd' Hin). lia.
Qed.

(** [addToCart] is applied exactly when PostgreSQL accepts its statement:
    the sum fits the integer column when a row holds the user and the
    product of the item; otherwise the quantity fits it, the user and the
    product are rows of their tables and the UUID is new.  When it is
    applied on a cart with unique row ids, the quantity the cart holds of
    the product for the user grows by the quantity of the item, and the
    quantity of no other (user, product) changes; when it is rejected the
    cart stays as it is. *)
Theorem addToCart_adds_the_quantity (uuid : string) (now : Z)
  (item : InsertCartItem) (users : list string) (products : list Product)
  (rows : list CartItem) (u p : string) :
  NoDup (map cart_id rows) ->
  let applied :=
    match filter (same_pair (ins_userId item) (ins_productId item)) rows with
    | e :: _ => is_int4 (quantity e + ins_quantity item)
    | [] =>
        is_int4 (ins_quantity item)
        && existsb (String.eqb (ins_userId item)) users
        && existsb (fun p => String.eqb (ins_productId item) (product_id p))
             products
        && negb (existsb (fun c => String.eqb (cart_id c) uuid) rows)
    end in
  let rows' := cart_step users products rows (AddToCart uuid now item) in
  (if applied
   then exists answer,
          addToCart uuid now item users products rows = Return (rows', answer)
   else addToCart uuid now item users products rows = Throw rejected
        /\ rows' = rows)
  /\ quantity_of u p rows'
     = quantity_of u p rows
       + (if applied
             && String.eqb (ins_userId item) u
             && String.eqb (ins_productId item) p
          then ins_quantity item else 0).
Proof.
  intros Hnd. cbv zeta. simpl cart_step. unfold addToCart, accepts_cart_row.
  destruct (filter _ rows) as [|e existing] eqn:Hex; simpl.
  - destruct (is_int4 (ins_quantity item)
              && existsb (String.eqb (ins_userId item)) users
              && existsb (fun p0 => String.eqb (ins_productId item) (product_id p0))
                   products
              && negb (existsb (fun c => String.eqb (cart_id c) uuid) rows)).
    + split; [eexists; reflexivity|].
      rewrite quantity_of_app, quantity_of_cons. unfold same_pair. simpl.
      change (quantity_of u p []) with 0. lia.
    + split; [now split|]. simpl. lia.
  - assert (He : In e (filter (same_pair (ins_userId item) (ins_productId item)) rows))
      by (rewrite Hex; now left).
    apply filter_In in He as [Hin Hsame].
    unfold same_pair in Hsame. apply andb_true_iff in Hsame as [Hu Hp].
    apply String.eqb_eq in Hu, Hp.
    destruct (is_int4 (quantity e + ins_quantity item)).
    + split; [eexists; reflexivity|].
      rewrite (quantity_of_update u p e _ rows Hnd Hin).
      unfold same_pair. rewrite Hu, Hp.
      destruct (String.eqb (ins_userId item) u), (String.eqb (ins_productId item) p);
        simpl; lia.
    + split; [now split|]. simpl. lia.
Qed.

Lemma addToCart_adds_the_quantity_witness :
  NoDup (map cart_id (cart Sample.shop))
  /\ let item := mkInsertCartItem "ann" "eggs" 4 in
     let rows := cart Sample.shop in
     let applied :=
       match filter (same_pair (ins_userId item) (ins_productId item)) rows with
       | e :: _ => is_int4 (quantity e + ins_quantity item)
       | [] =>
           is_int4 (ins_quantity item)
           && existsb (String.eqb (ins_userId item)) ["ann"; "bob"]
           && existsb (fun p => String.eqb (ins_productId item) (product_id p))
                (products Sample.shop)
           && negb (existsb (fun c => String.eqb (cart_id c) "c9") rows)
       end in
     let rows' :=
       cart_step ["ann"; "bob"] (products Sample.shop) rows
         (AddToCart "c9" 3000 item) in
     (if applied
      then exists answer,
             addToCart "c9" 3000 item ["ann"; "bob"] (products Sample.shop) rows
             = Return (rows', answer)
      else addToCart "c9" 3000 item ["ann"; "bob"] (products Sample.shop) rows
           = Throw rejected
           /\ rows' = rows)
     /\ quantity_of "ann" "eggs" rows'
        = quantity_of "ann" "eggs" rows
          + (if applied
                && String.eqb (ins_userId item) "ann"
                && String.eqb (ins_productId item) "eggs"
             then ins_quantity item else 0).
Proof.
  assert (H : NoDup (map cart_id (cart Sample.shop))).
  { simpl. repeat constructor; simpl; intuition discriminate. }
  split; [exact H|].
  apply (addToCart_adds_the_quantity "c9" 3000 (mkInsertCartItem "ann" "eggs" 4)
           ["ann"; "bob"] (products Sample.shop) (cart Sample.shop)
           "ann" "eggs" H).
Defined.

(** With a quantity that fits the column, [updateCartItem] throws "Cart
    item not found" exactly when no row has the id.  Otherwise it keeps the
    rows, their ids, users and products, gives the quantity to every row
    of the id and no other, and returns such a row. *)
Theorem updateCartItem_by_id (i : string) (q : Z) (rows : list CartItem) :
  int4 q ->
  (updateCartItem i q rows = Throw (Error "Cart item not found")
   <-> ~ In i (map cart_id rows))
  /\ forall rows' c',
       updateCartItem i q rows = Return (rows', c') ->
       map cart_id rows' = map cart_id rows
       /\ map pair_of rows' = map pair_of rows
       /\ Forall2 (fun c c' =>
                     quantity c' = if String.eqb (cart_id c) i then q else quantity c)
            rows rows'
       /\ In c' rows' /\ cart_id c' = i /\ quantity c' = q.
Proof.
  intros Hq. apply is_int4_spec in Hq. unfold updateCartItem. rewrite Hq.
  assert (Hin : forall c, In c (filter (fun c => String.eqb (cart_id c) i)
                                  (update_quantity i q rows))
                          -> In c (update_quantity i q rows)
                             /\ cart_id c = i /\ quantity c = q).
  { intros c Hc. apply filter_In in Hc as [Hc Hid]. apply String.eqb_eq in Hid.
    repeat split; auto.
    unfold update_quantity in Hc. apply in_map_iff in Hc as (c0 & Hc0 & _).
    destruct (String.eqb_spec (cart_id c0) i) as [_|Hne]; subst c.
    - reflexivity.
    - contradiction. }
  destruct (filter _ (update_quantity i q rows)) as [|c l] eqn:Hf.
  - split.
    + split; [intros _|reflexivity].
      intros Hi. rewrite <- (ids_update_quantity i q) in Hi.
      apply in_map_iff in Hi as (c & Hc & Hi).
      assert (In c []) as [].
      rewrite <- Hf. apply filter_In. split; [exact Hi|]. now apply String.eqb_eq.
    + discriminate.
  - split.
    + split; [discriminate|]. intros Hi. exfalso. apply Hi.
      destruct (Hin c (or_introl eq_refl)) as (Hc & Hid & _).
      rewrite <- (ids_update_quantity i q). apply in_map_iff. now exists c.
    + intros rows' c' [= <- <-].
      split; [apply ids_update_quantity|].
      split; [apply CartProperties.pairs_update_quantity|].
      split; [|apply Hin; now left].
      clear. induction rows as [|c rows IH]; simpl; constructor; [|exact IH].
      now destruct (String.eqb (cart_id c) i).
Qed.

Lemma updateCartItem_by_id_witness :
  int4 5
  /\ (updateCartItem "c1" 5 (cart Sample.shop)
      = Throw (Error "Cart item not found")
      <-> ~ In "c1" (map cart_id (cart Sample.shop)))
  /\ forall rows' c',
       updateCartItem "c1" 5 (cart Sample.shop) = Return (rows', c') ->
       map cart_id rows' = map cart_id (cart Sample.shop)
       /\ map pair_of rows' = map pair_of (cart Sample.shop)
       /\ Forall2 (fun c c' =>
                     quantity c'
                     = if String.eqb (cart_id c) "c1" then 5 else quantity c)
            (cart Sample.shop) rows'
       /\ In c' rows' /\ cart_id c' = "c1" /\ quantity c' = 5.
Proof.
  assert (H : int4 5) by (unfold int4; lia).
  split; [exact H|].
  apply (updateCartItem_by_id "c1" 5 (cart Sample.shop) H).
Defined.

(** [PATCH /api/cart/:id] does not look at the owner of the row: for any
    authenticated user and any row of the cart table, it gives the row the
    quantity of the request, whatever integer of the column it is, zero
    and the negative ones included, and answers the row. *)
Theorem patch_cart_ignores_the_owner (user id : string) (q : Z)
  (rows : list CartItem) (c : CartItem) :
  int4 q ->
  NoDup (map cart_id rows) ->
  In c rows ->
  cart_id c = id ->
  exists rows',
    patch_cart (Some user) id q rows = (rows', Json (set_quantity q c))
    /\ In (set_quantity q c) rows'
    /\ List.length rows' = List.length rows.
Proof.
  intros Hq Hnd Hin Hid. apply is_int4_spec in Hq.
  subst id. exists (update_quantity (cart_id c) q rows).
  assert (Hfilter : filter (fun c0 => String.eqb (cart_id c0) (cart_id c))
                      (update_quantity (cart_id c) q rows)
                    = [set_quantity q c])
    by now apply rows_of_updated_id.
  split.
  - unfold patch_cart, updateCartItem. now rewrite Hq, Hfilter.
  - split.
    + unfold update_quantity. apply in_map_iff. exists c.
      now rewrite String.eqb_refl.
    + unfold update_quantity. apply length_map.
Qed.

Lemma patch_cart_ignores_the_owner_witness :
  int4 (-7)
  /\ NoDup (map cart_id (cart Sample.shop))
  /\ In Sample.ann_eggs (cart Sample.shop)
  /\ cart_id Sample.ann_eggs = "c1"
  /\ exists rows',
       patch_cart (Some "bob") "c1" (-7) (cart Sample.shop)
       = (rows', Json (set_quantity (-7) Sample.ann_eggs))
       /\ In (set_quantity (-7) Sample.ann_eggs) rows'
       /\ List.length rows' = List.length (cart Sample.shop).
Proof.
  assert (H : NoDup (map cart_id (cart Sample.shop))).
  { simpl. repeat constructor; simpl; intuition discriminate. }
  assert (Hq : int4 (-7)) by (unfold int4; lia).
  split; [exact Hq|].
  split; [exact H|]. split; [now left|]. split; [reflexivity|].
  apply (patch_cart_ignores_the_owner "bob" "c1" (-7) (cart Sample.shop)
           Sample.ann_eggs Hq H); [now left | reflexivity].
Defined.

(** [DELETE /api/cart/:id] does not look at the owner either: for any
    authenticated user it removes every row of the id and no other row,
    and it answers success also when no row has the id, leaving the table
    as it was. *)
Theorem delete_cart_by_id (user id : string) (rows : list CartItem) :
  let rows' := fst (delete_cart (Some user) id rows) in
  snd (delete_cart (Some user) id rows) = Message "Item removed from cart"
  /\ ~ In id (map cart_id rows')
  /\ (forall c, In c rows' <-> In c rows /\ cart_id c <> id)
  /\ (~ In id (map cart_id rows) -> rows' = rows)
  /\ fst (delete_cart (Some user) id rows') = rows'.
Proof.
  simpl. unfold removeFromCart.
  assert (Hin : forall c,
            In c (filter (fun c => negb (String.eqb (cart_id c) id)) rows)
            <-> In c rows /\ cart_id c <> id).
  { intros c. now rewrite filter_In, negb_true_iff, String.eqb_neq. }
  assert (Hsame : forall l, ~ In id (map cart_id l) ->
            filter (fun c => negb (String.eqb (cart_id c) id)) l = l).
  { intros l. induction l as [|c l IH]; simpl; intros H; [reflexivity|].
    destruct (String.eqb_spec (cart_id c) id); [tauto|].
    simpl. f_equal. apply IH. tauto. }
  assert (Hgone : ~ In id (map cart_id
                    (filter (fun c => negb (String.eqb (cart_id c) id)) rows))).
  { intros H. apply in_map_iff in H as (c & Hc & H).
    apply Hin in H as [_ H]. contradiction. }
  split; [reflexivity|]. split; [exact Hgone|]. split; [exact Hin|].
  split; [apply Hsame | now apply Hsame].
Qed.

End MoreCartProperties.

(* ------------------------------------------------------------------ *)
(** ** Joins *)

Module JoinProperties.

Lemma flat_map_filter {A B : Type} (g : A -> bool) (f : A -> list B)
  (l : list A) :
  (forall a, g a = false -> f a = []) ->
  flat_map f (filter g l) = flat_map f l.
Proof.
  intros H. induction l as [|a l IH]; simpl; [reflexivity|].
  destruct (g a) eqn:Hg; simpl; rewrite IH; [reflexivity|].
  now rewrite (H a Hg).
Qed.

(** A join on two keys that each select one row has one row. *)
Lemma join_one {P R X : Type} (A : P -> bool) (B : P -> R -> bool) (C : bool)
  (mk : P -> R -> X) (ps : list P) (rs : list R) (p0 : P) (r0 : R) :
  filter A ps = [p0] ->
  filter (B p0) rs = [r0] ->
  flat_map (fun p =>
    flat_map (fun r => if A p && B p r && C then [mk p r] else []) rs) ps
  = if C then [mk p0 r0] else [].
Proof.
  intros HA HB.
  assert (HAp0 : A p0 = true).
  { assert (H : In p0 (filter A ps)) by (rewrite HA; now left).
    now apply filter_In in H. }
  assert (HBr0 : B p0 r0 = true).
  { assert (H : In r0 (filter (B p0) rs)) by (rewrite HB; now left).
    now apply filter_In in H. }
  rewrite <- (flat_map_filter A).
  - rewrite HA. simpl. rewrite app_nil_r.
    rewrite <- (flat_map_filter (B p0)).
    + rewrite HB. simpl. rewrite HAp0, HBr0. simpl. now destruct C.
    + intros r Hr. now rewrite Hr, andb_false_r.
  - intros p Hp. rewrite Hp. simpl.
    apply CheckoutProperties.flat_map_nil. reflexivity.
Qed.

(** Under a key without duplicates, the rows of the key of a row are the
    row alone. *)
Lemma filter_key {A : Type} (key : A -> string) (l : list A) (a : A) :
  NoDup (map key l) ->
  In a l ->
  filter (fun b => String.eqb (key a) (key b)) l = [a].
Proof.
  induction l as [|b l IH]; simpl; intros Hnd Hin; [contradiction|].
  inversion Hnd as [|? ? Hnotin Hnd']; subst.
  destruct Hin as [-> | Hin].
  - rewrite String.eqb_refl. f_equal.
    clear IH Hnd Hnd'. induction l as [|c l IH]; simpl; [reflexivity|].
    simpl in Hnotin.
    destruct (String.eqb_spec (key a) (key c)) as [Heq|_].
    + exfalso. apply Hnotin. left. now symmetry.
    + apply IH. tauto.
  - destruct (String.eqb_spec (key a) (key b)) as [Heq|_].
    + exfalso. apply Hnotin. rewrite <- Heq. now apply in_map.
    + now apply IH.
Qed.

End JoinProperties.

(* ------------------------------------------------------------------ *)
(** ** Reading and clearing a cart *)

Module CartReadProperties.
Import JS Storage Checkout CartRoutes JoinProperties.

(** Every item of [getCartItems] is a cart row of the user, with the
    product the row names and the producer the product names. *)
Lemma getCartItems_sound (userId : string) (d : db) :
  Forall (fun i =>
            In (item i) (cart d)
            /\ cart_userId (item i) = userId
            /\ In (item_product i) (products d)
            /\ product_id (item_product i) = cart_productId (item i)
            /\ In (item_producer i) (producers d)
            /\ producer_id (item_producer i) = producerId (item_product i))
    (getCartItems userId d).
Proof.
  apply Forall_forall. intros i Hi. unfold getCartItems in Hi.
  apply in_flat_map in Hi as (c & Hc & Hi).
  apply in_flat_map in Hi as (p & Hp & Hi).
  apply in_flat_map in Hi as (r & Hr & Hi).
  destruct (String.eqb_spec (cart_productId c) (product_id p)); [|contradiction].
  destruct (String.eqb_spec (producerId p) (producer_id r)); [|contradiction].
  destruct (String.eqb_spec (cart_userId c) userId); [|contradiction].
  destruct Hi as [<- | []]. simpl. auto 10.
Qed.

(** In the model the rows of the join come in the order of the lists. *)
Lemma getCartItems_rows (userId : string) (d : db) :
  cart_references_hold d ->
  foreign_keys_hold d ->
  map item (getCartItems userId d)
  = filter (fun c => String.eqb (cart_userId c) userId) (cart d).
Proof.
  intros Hcart Hfk.
  unfold getCartItems, cart_references_hold in *.
  induction (cart d) as [|c rows IH]; [reflexivity|].
  simpl flat_map. rewrite map_app, IH by (intros c' Hc'; apply Hcart; now right).
  destruct (Hcart c (or_introl eq_refl)) as [p Hp].
  assert (Hin : In p (products d)).
  { assert (H : In p (filter (fun p => String.eqb (cart_productId c) (product_id p))
                        (products d))) by (rewrite Hp; now left).
    now apply filter_In in H. }
  destruct (Hfk p Hin) as [r Hr]. unfold producers_of in Hr.
  rewrite (join_one (fun p => String.eqb (cart_productId c) (product_id p))
             (fun p r => String.eqb (producerId p) (producer_id r))
             (String.eqb (cart_userId c) userId)
             (mkCartItemWithProduct c) (products d) (producers d) p r Hp Hr).
  simpl. now destruct (String.eqb (cart_userId c) userId).
Qed.

(** Under referential integrity, [getCartItems] has one item for each
    cart row of the user and no other (the query has no ORDER BY: the
    items come in an order that is PostgreSQL's), and every item is
    a row of the user with the product it names and the producer of that
    product. *)
Theorem getCartItems_one_item_per_row (userId : string) (d : db) :
  cart_references_hold d ->
  foreign_keys_hold d ->
  Permutation (map item (getCartItems userId d))
    (filter (fun c => String.eqb (cart_userId c) userId) (cart d))
  /\ Forall (fun i =>
               In (item_product i) (products d)
               /\ product_id (item_product i) = cart_productId (item i)
               /\ In (item_producer i) (producers d)
               /\ producer_id (item_producer i) = producerId (item_product i))
       (getCartItems userId d).
Proof.
  intros Hcart Hfk. split.
  - now rewrite getCartItems_rows.
  - eapply Forall_impl; [|apply getCartItems_sound]. simpl. intros i H. tauto.
Qed.

Lemma shop_cart_references : cart_references_hold Sample.shop.
Proof.
  intros c [<- | [<- | [<- | []]]]; eexists; reflexivity.
Qed.

Lemma getCartItems_one_item_per_row_witness :
  cart_references_hold Sample.shop
  /\ foreign_keys_hold Sample.shop
  /\ Permutation (map item (getCartItems "ann" Sample.shop))
       (filter (fun c => String.eqb (cart_userId c) "ann") (cart Sample.shop))
  /\ Forall (fun i =>
               In (item_product i) (products Sample.shop)
               /\ product_id (item_product i) = cart_productId (item i)
               /\ In (item_producer i) (producers Sample.shop)
               /\ producer_id (item_producer i) = producerId (item_product i))
       (getCartItems "ann" Sample.shop).
Proof.
  split; [exact shop_cart_references|].
  split; [exact SearchProperties.shop_foreign_keys|].
  apply (getCartItems_one_item_per_row "ann" Sample.shop
           shop_cart_references SearchProperties.shop_foreign_keys).
Defined.

(** The cart items of a user depend on the producers, the products and the
    cart rows of that user only. *)
Lemma getCartItems_cart (v : string) (d1 d2 : db) :
  producers d1 = producers d2 ->
  products d1 = products d2 ->
  filter (fun c => String.eqb (cart_userId c) v) (cart d1)
  = filter (fun c => String.eqb (cart_userId c) v) (cart d2) ->
  getCartItems v d1 = getCartItems v d2.
Proof.
  intros Hr Hp H. unfold getCartItems. rewrite Hr, Hp.
  rewrite <- (flat_map_filter (fun c => String.eqb (cart_userId c) v) _ (cart d1)).
  - rewrite <- (flat_map_filter (fun c => String.eqb (cart_userId c) v) _ (cart d2)).
    + now rewrite H.
    + intros c Hc. apply CheckoutProperties.flat_map_nil. intros p _.
      apply CheckoutProperties.flat_map_nil. intros r _.
      now rewrite Hc, andb_false_r.
  - intros c Hc. apply CheckoutProperties.flat_map_nil. intros p _.
    apply CheckoutProperties.flat_map_nil. intros r _.
    now rewrite Hc, andb_false_r.
Qed.

Lemma clearCart_other (u v : string) (rows : list CartItem) :
  u <> v ->
  filter (fun c => String.eqb (cart_userId c) v) (clearCart u rows)
  = filter (fun c => String.eqb (cart_userId c) v) rows.
Proof.
  intros Hne. unfold clearCart.
  induction rows as [|c rows IH]; simpl; [reflexivity|].
  destruct (String.eqb_spec (cart_userId c) u) as [Hu|Hu]; simpl.
  - destruct (String.eqb_spec (cart_userId c) v); [congruence|exact IH].
  - destruct (String.eqb (cart_userId c) v); [f_equal|]; exact IH.
Qed.

(** [clearCart(u)] removes the rows of [u] and nothing else: no row of [u]
    is left, the rows of the other users stay in their order, and the cart
    items of every other user are the same. *)
Theorem clearCart_only_that_user (u : string) (d : db) :
  Forall (fun c => cart_userId c <> u) (cart (clearCart_db u d))
  /\ getCartItems u (clearCart_db u d) = []
  /\ forall v, v <> u ->
       filter (fun c => String.eqb (cart_userId c) v) (cart (clearCart_db u d))
       = filter (fun c => String.eqb (cart_userId c) v) (cart d)
       /\ getCartItems v (clearCart_db u d) = getCartItems v d.
Proof.
  split; [|split].
  - apply Forall_forall. intros c Hc. simpl in Hc. unfold clearCart in Hc.
    apply filter_In in Hc as [_ Hc]. apply negb_true_iff in Hc.
    now apply String.eqb_neq.
  - apply CheckoutProperties.getCartItems_cleared.
  - intros v Hv. assert (Hf := clearCart_other u v (cart d) (not_eq_sym Hv)).
    split; [exact Hf|]. now apply getCartItems_cart.
Qed.

End CartReadProperties.

(* ------------------------------------------------------------------ *)
(** ** What a checkout touches *)

Module CheckoutFrameProperties.
Import JS Fees Storage Checkout CartRoutes JoinProperties CartReadProperties.

(** Without cart items, or with a delivery fee that is not a number, the
    request is answered 400 and the database stays as it was. *)
Lemma post_orders_unpriced (e : env) (u : string) (b : body) (d : db) :
  getCartItems u d = [] \/ deliveryFeeOf (deliveryOption b) = Obj ->
  exists m, post_orders e (Some u) b d = (d, Checkout.Status400 m).
Proof.
  intros H. unfold post_orders, try_post_orders.
  destruct (rejects e GetCartItems); [now eexists|].
  destruct (getCartItems u d) as [|ci cis]; [now eexists|].
  destruct H as [H|H]; [discriminate|]. rewrite H. now eexists.
Qed.

(** The delivery fee of a request is a number or the inherited object. *)
Lemma deliveryFeeOf_number_or_object (deliveryOption : string) :
  (inherited deliveryOption = true /\ deliveryFeeOf deliveryOption = Obj)
  \/ (inherited deliveryOption = false
      /\ exists fee, deliveryFeeOf deliveryOption = Num fee).
Proof.
  destruct (inherited deliveryOption) eqn:Hi.
  - left. split; [reflexivity|]. now apply FeeProperties.deliveryFeeOf_inherited.
  - right. split; [reflexivity|]. now apply FeeProperties.deliveryFeeOf_number.
Qed.

(** Whatever the request and whichever statement fails, [POST /api/orders]
    leaves the producers and the products as they were, keeps every order
    and order item and adds at most one order, which is the user's, and
    leaves the cart rows and the cart items of every other user as they
    were. *)
Theorem checkout_touches_only_the_user (e : env) (user : option string)
  (b : body) (d : db) :
  let d' := fst (post_orders e user b d) in
  producers d' = producers d
  /\ products d' = products d
  /\ (exists new,
        orders d' = orders d ++ new
        /\ (List.length new <= 1)%nat
        /\ Forall (fun o => Some (io_userId (order_data o)) = user) new)
  /\ (exists new, orderItems d' = orderItems d ++ new)
  /\ forall v, user <> Some v ->
       filter (fun c => String.eqb (cart_userId c) v) (cart d')
       = filter (fun c => String.eqb (cart_userId c) v) (cart d)
       /\ getCartItems v d' = getCartItems v d.
Proof.
  assert (Hsame : forall d0 : db, d0 = d ->
            producers d0 = producers d
            /\ products d0 = products d
            /\ (exists new,
                  orders d0 = orders d ++ new
                  /\ (List.length new <= 1)%nat
                  /\ Forall (fun o => Some (io_userId (order_data o)) = user) new)
            /\ (exists new, orderItems d0 = orderItems d ++ new)
            /\ forall v, user <> Some v ->
                 filter (fun c => String.eqb (cart_userId c) v) (cart d0)
                 = filter (fun c => String.eqb (cart_userId c) v) (cart d)
                 /\ getCartItems v d0 = getCartItems v d).
  { intros d0 ->. repeat split; auto.
    - exists []. rewrite app_nil_r. repeat split; auto.
    - exists []. now rewrite app_nil_r. }
  intros d'. unfold d'. clear d'.
  destruct user as [u|]; [|now apply Hsame].
  destruct (getCartItems u d) as [|ci cis] eqn:Hcart.
  { destruct (post_orders_unpriced e u b d (or_introl Hcart)) as [m ->].
    now apply Hsame. }
  destruct (deliveryFeeOf_number_or_object (deliveryOption b))
    as [[_ Hfee] | [_ [fee Hfee]]].
  { destruct (post_orders_unpriced e u b d (or_intror Hfee)) as [m ->].
    now apply Hsame. }
  unfold post_orders.
  rewrite (CheckoutProperties.try_post_orders_run e u b d ci cis fee Hcart Hfee).
  set (o := order_of e u b (ci :: cis) fee).
  assert (Hone : (List.length [o] <= 1)%nat
                 /\ Forall (fun o => Some (io_userId (order_data o)) = Some u) [o])
    by (split; [simpl; lia | now repeat constructor]).
  assert (Hother : forall v, Some u <> Some v ->
            filter (fun c => String.eqb (cart_userId c) v) (clearCart u (cart d))
            = filter (fun c => String.eqb (cart_userId c) v) (cart d))
    by (intros v Hv; apply clearCart_other; congruence).
  destruct (fault e) as [[ | | | ]|]; simpl; try (now apply Hsame).
  - split; [reflexivity|]. split; [reflexivity|].
    split; [now exists [o]|].
    split; [exists []; now rewrite app_nil_r|].
    intros v _. split; [reflexivity|]. now apply getCartItems_cart.
  - split; [reflexivity|]. split; [reflexivity|].
    split; [now exists [o]|].
    split; [eexists; reflexivity|].
    intros v _. split; [reflexivity|]. now apply getCartItems_cart.
  - split; [reflexivity|]. split; [reflexivity|].
    split; [now exists [o]|].
    split; [eexists; reflexivity|].
    intros v Hv. split; [now apply Hother|].
    apply getCartItems_cart; [reflexivity | reflexivity |]. now apply Hother.
Qed.

(** [POST /api/orders] answers an order only when the user is
    authenticated, the cart has items, the delivery option is not a
    property of [Object.prototype] and no statement fails; then the order
    is stored as pending for that user, one order item is stored for each
    cart item, and the user has no cart item left. *)
Theorem order_answered_only_when_applied (e : env) (user : option string)
  (b : body) (d d' : db) (o : Order) :
  post_orders e user b d = (d', Ok o) ->
  exists u,
    user = Some u
    /\ fault e = None
    /\ getCartItems u d <> []
    /\ inherited (deliveryOption b) = false
    /\ orders d' = orders d ++ [o]
    /\ order_id o = order_uuid e
    /\ io_userId (order_data o) = u
    /\ io_status (order_data o) = "pending"
    /\ (exists new,
          orderItems d' = orderItems d ++ new
          /\ List.length new = List.length (getCartItems u d)
          /\ Forall (fun oi => oi_orderId oi = order_id o) new)
    /\ getCartItems u d' = [].
Proof.
  intros H. destruct user as [u|]; [|discriminate].
  exists u. split; [reflexivity|].
  destruct (getCartItems u d) as [|ci cis] eqn:Hcart.
  { destruct (post_orders_unpriced e u b d (or_introl Hcart)) as [m Hm].
    rewrite Hm in H. discriminate. }
  destruct (deliveryFeeOf_number_or_object (deliveryOption b))
    as [[_ Hfee] | [Hi [fee Hfee]]].
  { destruct (post_orders_unpriced e u b d (or_intror Hfee)) as [m Hm].
    rewrite Hm in H. discriminate. }
  unfold post_orders in H.
  rewrite (CheckoutProperties.try_post_orders_run e u b d ci cis fee Hcart Hfee) in H.
  destruct (fault e) as [[ | | | ]|]; try discriminate.
  injection H as <- <-.
  repeat split; try reflexivity; try discriminate; auto.
  - eexists. split; [reflexivity|]. split.
    + clear. generalize 0%nat. induction (ci :: cis) as [|i l IH]; intros k;
        simpl; [reflexivity|]. now rewrite IH.
    + clear. generalize 0%nat. induction (ci :: cis) as [|i l IH]; intros k;
        simpl; constructor; [reflexivity|]. apply IH.
  - apply CheckoutProperties.getCartItems_cleared.
Qed.

Lemma order_answered_only_when_applied_witness :
  let r := post_orders (Sample.request None) (Some "ann") Sample.pickup
             Sample.shop in
  exists o,
    r = (fst r, Ok o)
    /\ exists u,
         Some "ann" = Some u
         /\ fault (Sample.request None) = None
         /\ getCartItems u Sample.shop <> []
         /\ inherited (deliveryOption Sample.pickup) = false
         /\ orders (fst r) = orders Sample.shop ++ [o]
         /\ order_id o = order_uuid (Sample.request None)
         /\ io_userId (order_data o) = u
         /\ io_status (order_data o) = "pending"
         /\ (exists new,
               orderItems (fst r) = orderItems Sample.shop ++ new
               /\ List.length new = List.length (getCartItems u Sample.shop)
               /\ Forall (fun oi => oi_orderId oi = order_id o) new)
         /\ getCartItems u (fst r) = [].
Proof.
  eexists. split; [reflexivity|].
  eapply (order_answered_only_when_applied (Sample.request None) (Some "ann")
            Sample.pickup Sample.shop).
  reflexivity.
Defined.

End CheckoutFrameProperties.

(* ------------------------------------------------------------------ *)
(** ** Reading orders *)

Module OrderReadProperties.
Import JS Fees Storage Checkout Orders JoinProperties OrderProperties.

Lemma orders_of_id (id : string) (l : list Order) :
  filter (fun o => String.eqb (order_id o) id) l = []
  <-> ~ In id (map order_id l).
Proof.
  induction l as [|o l IH]; simpl; [tauto|].
  destruct (String.eqb_spec (order_id o) id) as [Heq|Hne].
  - split; [discriminate | intros H; exfalso; apply H; now left].
  - rewrite IH. tauto.
Qed.

(** [getOrder] answers [undefined] exactly when no order has the id. *)
Lemma getOrder_none (id : string) (d : db) :
  getOrder id d = None <-> ~ In id (map order_id (orders d)).
Proof.
  unfold getOrder. rewrite <- orders_of_id.
  destruct (filter _ (orders d)); split; congruence.
Qed.

(** What [getOrder] answers is an order of that id, with the rows of the
    id. *)
Lemma getOrder_some (id : string) (d : db) (ow : OrderWithItems) :
  getOrder id d = Some ow ->
  In (the_order ow) (orders d)
  /\ order_id (the_order ow) = id
  /\ items ow = order_rows id d.
Proof.
  unfold getOrder. destruct (filter _ (orders d)) as [|o l] eqn:Hf; [discriminate|].
  intros [= <-]. simpl.
  assert (H : In o (filter (fun o => String.eqb (order_id o) id) (orders d)))
    by (rewrite Hf; now left).
  apply filter_In in H as [Hin Hid]. apply String.eqb_eq in Hid. auto.
Qed.

(** With unique order ids, [getOrder] on the id of an order answers that
    order. *)
Lemma getOrder_of_order (o : Order) (d : db) :
  NoDup (map order_id (orders d)) ->
  In o (orders d) ->
  getOrder (order_id o) d
  = Some (mkOrderWithItems o (order_rows (order_id o) d)).
Proof.
  intros Hnd Hin. unfold getOrder.
  rewrite (filter_ext _ (fun b => String.eqb (order_id o) (order_id b)))
    by (intros b; apply String.eqb_sym).
  now rewrite (filter_key order_id (orders d) o Hnd Hin).
Qed.

(** [GET /api/orders/:id] answers an order only to the user the order
    belongs to: 401 without a user, 404 exactly when no order has the id,
    403 when the order of the id belongs to another user. *)
Theorem get_order_only_to_its_owner (user : option string) (id : string)
  (d : db) :
  match get_order user id d with
  | Json ow =>
      exists u,
        user = Some u
        /\ io_userId (order_data (the_order ow)) = u
        /\ order_id (the_order ow) = id
        /\ In (the_order ow) (orders d)
        /\ items ow = order_rows id d
  | Orders.Status401 _ => user = None
  | Status404 _ => user <> None /\ ~ In id (map order_id (orders d))
  | Status403 _ =>
      exists u o,
        user = Some u /\ In o (orders d) /\ order_id o = id
        /\ io_userId (order_data o) <> u
  end.
Proof.
  unfold get_order. destruct user as [u|]; [|reflexivity].
  destruct (getOrder id d) as [ow|] eqn:Hget.
  - destruct (getOrder_some id d ow Hget) as (Hin & Hid & Hitems).
    destruct (String.eqb_spec (io_userId (order_data (the_order ow))) u) as [Hu|Hu];
      simpl.
    + exists u. auto.
    + exists u, (the_order ow). auto.
  - split; [discriminate|]. now apply getOrder_none.
Qed.

Lemma newer_total (a b : Order) : newer a b = true \/ newer b a = true.
Proof. unfold newer. rewrite !Z.leb_le. lia. Qed.

(** With unique order ids, [getOrdersByUser] answers every order of the
    user once, none of another user, no [undefined], each with the rows of
    its id, newest first. *)
Theorem getOrdersByUser_newest_first (userId : string) (d : db) :
  NoDup (map order_id (orders d)) ->
  exists l,
    getOrdersByUser userId d = map Some l
    /\ Permutation (map the_order l)
         (filter (fun o => String.eqb (io_userId (order_data o)) userId)
            (orders d))
    /\ StronglySorted
         (fun a b => (order_createdAt b <= order_createdAt a)%Z)
         (map the_order l)
    /\ Forall (fun ow =>
                 io_userId (order_data (the_order ow)) = userId
                 /\ items ow = order_rows (order_id (the_order ow)) d) l.
Proof.
  intros Hnd. unfold getOrdersByUser.
  set (mine := filter (fun o => String.eqb (io_userId (order_data o)) userId)
                 (orders d)).
  set (sorted := orderBy newer mine).
  assert (Hin : forall o, In o sorted ->
                  In o (orders d) /\ io_userId (order_data o) = userId).
  { intros o Ho. apply in_orderBy in Ho. apply filter_In in Ho as [Ho Hu].
    now apply String.eqb_eq in Hu. }
  exists (map (fun o => mkOrderWithItems o (order_rows (order_id o) d)) sorted).
  assert (Hmap : map the_order
                   (map (fun o => mkOrderWithItems o (order_rows (order_id o) d))
                      sorted) = sorted).
  { rewrite map_map. simpl. apply map_id. }
  split; [|split; [|split]].
  - rewrite map_map. apply map_ext_in. intros o Ho.
    apply getOrder_of_order; [exact Hnd|]. now apply Hin.
  - rewrite Hmap. apply orderBy_permutation.
  - rewrite Hmap. apply Sorted_StronglySorted.
    + intros a b c. lia.
    + apply (SearchProperties.Sorted_impl (fun u v => newer u v = true)).
      * intros a b. unfold newer. now rewrite Z.leb_le.
      * apply orderBy_sorted, newer_total.
  - apply Forall_forall. intros ow How.
    apply in_map_iff in How as (o & <- & Ho). simpl.
    split; [now apply Hin | reflexivity].
Qed.

Lemma getOrdersByUser_newest_first_witness :
  NoDup (map order_id (orders SampleOrders.sold))
  /\ exists l,
       getOrdersByUser "ann" SampleOrders.sold = map Some l
       /\ Permutation (map the_order l)
            (filter (fun o => String.eqb (io_userId (order_data o)) "ann")
               (orders SampleOrders.sold))
       /\ StronglySorted
            (fun a b => (order_createdAt b <= order_createdAt a)%Z)
            (map the_order l)
       /\ Forall (fun ow =>
                    io_userId (order_data (the_order ow)) = "ann"
                    /\ items ow
                       = order_rows (order_id (the_order ow)) SampleOrders.sold) l.
Proof.
  assert (H : NoDup (map order_id (orders SampleOrders.sold))).
  { simpl. repeat constructor. simpl. tauto. }
  split; [exact H|].
  apply (getOrdersByUser_newest_first "ann" SampleOrders.sold H).
Defined.

(** [updateOrderStatus] throws "Order not found" exactly when no order has
    the id.  Otherwise it changes the orders table alone, and there the
    status and the update time of the orders of the id alone: ids, users,
    amounts, delivery and creation times stay, the other orders stay; the
    order returned has the id and the new status. *)
Theorem updateOrderStatus_only_the_status (id status : string) (now : Z)
  (d : db) :
  (updateOrderStatus id status now d = Throw (Error "Order not found")
   <-> ~ In id (map order_id (orders d)))
  /\ forall d' o',
       updateOrderStatus id status now d = Return (d', o') ->
       producers d' = producers d
       /\ products d' = products d
       /\ cart d' = cart d
       /\ orderItems d' = orderItems d
       /\ Forall2 (fun o o2 =>
                     o2 = (if String.eqb (order_id o) id
                           then set_status status now o else o)
                     /\ order_id o2 = order_id o
                     /\ order_createdAt o2 = order_createdAt o
                     /\ io_userId (order_data o2) = io_userId (order_data o)
                     /\ io_subtotal (order_data o2) = io_subtotal (order_data o)
                     /\ io_platformFee (order_data o2)
                        = io_platformFee (order_data o)
                     /\ io_processingFee (order_data o2)
                        = io_processingFee (order_data o)
                     /\ io_deliveryFee (order_data o2)
                        = io_deliveryFee (order_data o)
                     /\ io_total (order_data o2) = io_total (order_data o))
            (orders d) (orders d')
       /\ In o' (orders d')
       /\ order_id o' = id
       /\ io_status (order_data o') = status
       /\ order_updatedAt o' = now.
Proof.
  unfold updateOrderStatus.
  set (upd := fun o => if String.eqb (order_id o) id then set_status status now o else o).
  assert (Hids : map order_id (map upd (orders d)) = map order_id (orders d)).
  { rewrite map_map. apply map_ext. intros o. unfold upd.
    now destruct (String.eqb (order_id o) id). }
  destruct (filter _ (map upd (orders d))) as [|o l] eqn:Hf.
  - split.
    + split; [intros _|reflexivity]. rewrite <- Hids. now apply orders_of_id.
    + discriminate.
  - assert (Ho : In o (filter (fun o => String.eqb (order_id o) id)
                         (map upd (orders d)))) by (rewrite Hf; now left).
    apply filter_In in Ho as [Ho Hid]. apply String.eqb_eq in Hid.
    split.
    + split; [discriminate|]. intros Hnot. exfalso. apply Hnot.
      rewrite <- Hids, <- Hid. now apply in_map.
    + intros d' o' [= <- <-]. simpl.
      repeat (split; [reflexivity|]).
      split.
      * clear. induction (orders d) as [|a l IH]; simpl; constructor; [|exact IH].
        unfold upd. destruct (String.eqb (order_id a) id); repeat split.
      * split; [exact Ho|]. split; [exact Hid|].
        apply in_map_iff in Ho as (a & Ha & _). unfold upd in Ha.
        destruct (String.eqb_spec (order_id a) id) as [_|Hne]; subst o.
        -- split; reflexivity.
        -- contradiction.
Qed.

Lemma in_groupBy (a : string) (l : list string) : In a (groupBy l) <-> In a l.
Proof.
  induction l as [|b l IH]; simpl; [tauto|].
  rewrite filter_In, IH, negb_true_iff, String.eqb_neq.
  destruct (string_dec b a) as [->|Hne]; [tauto|].
  split; [tauto|]. intros [H|H]; [contradiction|]. right. split; congruence.
Qed.

Lemma NoDup_groupBy (l : list string) : NoDup (groupBy l).
Proof.
  induction l as [|b l IH]; simpl; constructor.
  - intros H. apply filter_In in H as [_ H].
    now rewrite String.eqb_refl in H.
  - now apply NoDup_filter.
Qed.

Lemma map_all_some {A B : Type} (f : A -> option B) (l : list A) :
  (forall a, In a l -> f a <> None) ->
  exists l', map f l = map Some l' /\ Forall2 (fun a b => f a = Some b) l l'.
Proof.
  induction l as [|a l IH]; intros H.
  - exists []. split; [reflexivity | constructor].
  - destruct IH as (l' & Hmap & Hall); [intros x Hx; apply H; now right|].
    destruct (f a) as [b|] eqn:Hfa; [|exfalso; apply (H a); [now left | exact Hfa]].
    exists (b :: l'). split; [simpl; now rewrite Hfa, Hmap|].
    constructor; assumption.
Qed.

Lemma Forall2_in_l {A B : Type} (R : A -> B -> Prop) (l : list A) (l' : list B) :
  Forall2 R l l' -> forall a, In a l -> exists b, In b l' /\ R a b.
Proof.
  induction 1 as [|x y l l' Hxy _ IH]; intros a Ha; [destruct Ha|].
  destruct Ha as [<- | Ha].
  - exists y. split; [now left | exact Hxy].
  - destruct (IH a Ha) as (b & Hb & Hab). exists b. split; [now right | exact Hab].
Qed.

Lemma Forall2_in_r {A B : Type} (R : A -> B -> Prop) (l : list A) (l' : list B) :
  Forall2 R l l' -> forall b, In b l' -> exists a, In a l /\ R a b.
Proof.
  induction 1 as [|x y l l' Hxy _ IH]; intros b Hb; [destruct Hb|].
  destruct Hb as [<- | Hb].
  - exists x. split; [now left | exact Hxy].
  - destruct (IH b Hb) as (a & Ha & Hab). exists a. split; [now right | exact Hab].
Qed.

Lemma Forall2_map_eq {A B C : Type} (g : B -> C) (h : A -> C) (l : list A)
  (l' : list B) :
  Forall2 (fun a b => g b = h a) l l' -> map g l' = map h l.
Proof. induction 1; simpl; congruence. Qed.

(** The order ids the query of [getOrdersByProducer] selects. *)
Lemma in_orderIds_of_producer (producer id : string) (d : db) :
  In id (orderIds_of_producer producer d)
  <-> exists oi p,
        In oi (orderItems d) /\ In p (products d)
        /\ oi_productId oi = product_id p
        /\ producerId p = producer
        /\ oi_orderId oi = id.
Proof.
  unfold orderIds_of_producer. rewrite in_groupBy, in_flat_map.
  split.
  - intros (oi & Hoi & H). apply in_flat_map in H as (p & Hp & H).
    destruct (String.eqb_spec (oi_productId oi) (product_id p)); [|contradiction].
    destruct (String.eqb_spec (producerId p) producer); [|contradiction].
    destruct H as [<- | []]. exists oi, p. auto.
  - intros (oi & p & Hoi & Hp & H1 & H2 & H3). exists oi. split; [exact Hoi|].
    apply in_flat_map. exists p. split; [exact Hp|].
    rewrite H1, H2, !String.eqb_refl. now left.
Qed.

(** With unique order ids and every order item naming an order of the
    table, [getOrdersByProducer] answers no [undefined]: it answers, once
    each, the orders that hold an item whose product belongs to the
    producer, and each with all the rows of the order, those of the
    products of other producers included. *)
Theorem getOrdersByProducer_each_order_once (producer : string) (d : db) :
  NoDup (map order_id (orders d)) ->
  (forall oi, In oi (orderItems d) ->
     In (oi_orderId oi) (map order_id (orders d))) ->
  exists l,
    getOrdersByProducer producer d = map Some l
    /\ NoDup (map (fun ow => order_id (the_order ow)) l)
    /\ (forall o,
          In o (map the_order l)
          <-> In o (orders d)
              /\ exists oi p,
                   In oi (orderItems d) /\ In p (products d)
                   /\ oi_productId oi = product_id p
                   /\ producerId p = producer
                   /\ oi_orderId oi = order_id o)
    /\ Forall (fun ow => items ow = order_rows (order_id (the_order ow)) d) l.
Proof.
  intros Hnd Hfk. unfold getOrdersByProducer.
  set (ids := orderIds_of_producer producer d).
  destruct (map_all_some (fun id => getOrder id d) ids) as (l & Hmap & Hall).
  { intros id Hid Hnone. apply getOrder_none in Hnone. apply Hnone.
    apply in_orderIds_of_producer in Hid as (oi & p & Hoi & _ & _ & _ & <-).
    now apply Hfk. }
  assert (Hids : map (fun ow => order_id (the_order ow)) l = map (fun id => id) ids).
  { apply Forall2_map_eq. eapply Forall2_impl; [|exact Hall].
    intros id ow Hget. simpl in Hget. now apply getOrder_some in Hget. }
  rewrite map_id in Hids.
  exists l. split; [exact Hmap|]. split; [|split].
  - rewrite Hids. apply NoDup_groupBy.
  - intros o. split.
    + intros Ho. apply in_map_iff in Ho as (ow & <- & How).
      destruct (Forall2_in_r _ _ _ Hall ow How) as (id & Hid & Hget).
      simpl in Hget. apply getOrder_some in Hget as (Hin & Hoid & _).
      split; [exact Hin|]. rewrite Hoid.
      now apply in_orderIds_of_producer.
    + intros (Ho & Hex). apply in_orderIds_of_producer in Hex.
      destruct (Forall2_in_l _ _ _ Hall _ Hex) as (ow & How & Hget).
      simpl in Hget. rewrite (getOrder_of_order o d Hnd Ho) in Hget.
      injection Hget as <-. apply in_map_iff.
      eexists. split; [|exact How]. reflexivity.
  - apply Forall_forall. intros ow How.
    destruct (Forall2_in_r _ _ _ Hall ow How) as (id & Hid & Hget).
    simpl in Hget. apply getOrder_some in Hget as (_ & Hoid & Hitems).
    now rewrite Hoid.
Qed.

Lemma getOrdersByProducer_each_order_once_witness :
  NoDup (map order_id (orders SampleOrders.sold))
  /\ (forall oi, In oi (orderItems SampleOrders.sold) ->
        In (oi_orderId oi) (map order_id (orders SampleOrders.sold)))
  /\ exists l,
       getOrdersByProducer "orchard" SampleOrders.sold = map Some l
       /\ NoDup (map (fun ow => order_id (the_order ow)) l)
       /\ (forall o,
             In o (map the_order l)
             <-> In o (orders SampleOrders.sold)
                 /\ exists oi p,
                      In oi (orderItems SampleOrders.sold)
                      /\ In p (products SampleOrders.sold)
                      /\ oi_productId oi = product_id p
                      /\ producerId p = "orchard"
                      /\ oi_orderId oi = order_id o)
       /\ Forall (fun ow =>
                    items ow
                    = order_rows (order_id (the_order ow)) SampleOrders.sold) l.
Proof.
  assert (H1 : NoDup (map order_id (orders SampleOrders.sold))).
  { simpl. repeat constructor. simpl. tauto. }
  assert (H2 : forall oi, In oi (orderItems SampleOrders.sold) ->
                 In (oi_orderId oi) (map order_id (orders SampleOrders.sold))).
  { intros oi Hoi. simpl in Hoi. destruct Hoi as [<- | [<- | []]]; now left. }
  split; [exact H1|]. split; [exact H2|].
  apply (getOrdersByProducer_each_order_once "orchard" SampleOrders.sold H1 H2).
Defined.

End OrderReadProperties.

(* ------------------------------------------------------------------ *)
(** ** From checkout to the order read back *)

Module OrderRoundTrip.
Import JS Fees Storage Checkout Orders OrderRows JoinProperties
  CartReadProperties CheckoutFrameProperties OrderReadProperties.

(** The run behind an answered order. *)
Lemma post_orders_ok (e : env) (u : string) (b : body) (d d' : db) (o : Order) :
  post_orders e (Some u) b d = (d', Ok o) ->
  exists ci cis fee,
    getCartItems u d = ci :: cis
    /\ deliveryFeeOf (deliveryOption b) = Num fee
    /\ o = order_of e u b (ci :: cis) fee
    /\ d' = clearCart_db u (with_items e o (ci :: cis) (with_order o d)).
Proof.
  intros H.
  destruct (getCartItems u d) as [|ci cis] eqn:Hcart.
  { destruct (post_orders_unpriced e u b d (or_introl Hcart)) as [m Hm].
    rewrite Hm in H. discriminate. }
  destruct (deliveryFeeOf_number_or_object (deliveryOption b))
    as [[_ Hfee] | [Hi [fee Hfee]]].
  { destruct (post_orders_unpriced e u b d (or_intror Hfee)) as [m Hm].
    rewrite Hm in H. discriminate. }
  unfold post_orders in H.
  rewrite (CheckoutProperties.try_post_orders_run e u b d ci cis fee Hcart Hfee) in H.
  destruct (fault e) as [[ | | | ]|]; try discriminate.
  injection H as <- <-. exists ci, cis, fee. auto.
Qed.

Lemma rows_of_new_items (uuid : nat -> string) (id : string) (d : db)
  (cartItems : list CartItemWithProduct) (k : nat) :
  NoDup (map product_id (products d)) ->
  NoDup (map producer_id (producers d)) ->
  Forall (fun i =>
            In (item_product i) (products d)
            /\ In (item_producer i) (producers d)
            /\ producer_id (item_producer i) = producerId (item_product i))
    cartItems ->
  exists rows,
    flat_map (fun oi =>
      flat_map (fun p =>
        flat_map (fun r =>
          if String.eqb (oi_productId oi) (product_id p)
             && String.eqb (producerId p) (producer_id r)
             && String.eqb (oi_orderId oi) id
          then [mkOrderItemRow (oi_id oi) (oi_quantity oi) (oi_unitPrice oi)
                  (oi_totalPrice oi) p r]
          else [])
        (producers d))
      (products d))
    (orderItemsData uuid k id (map orderItemData_of cartItems))
    = rows
    /\ Forall2 row_of_item cartItems rows.
Proof.
  intros Hp Hr Hall. revert k.
  induction Hall as [|i l (Hip & Hir & Hid) Hall IH]; intros k; simpl.
  - exists []. split; [reflexivity | constructor].
  - destruct (IH (S k)) as (rows & Hrows & Hf2).
    rewrite Hrows.
    rewrite (join_one
               (fun p => String.eqb (product_id (item_product i)) (product_id p))
               (fun p r => String.eqb (producerId p) (producer_id r))
               (String.eqb id id)
               (fun p r => mkOrderItemRow (uuid k) (quantity (item i))
                             (price (item_product i)) (line_total i) p r)
               (products d) (producers d) (item_product i) (item_producer i)).
    + rewrite String.eqb_refl. eexists. split; [reflexivity|].
      constructor; [|exact Hf2]. repeat split.
    + now apply (filter_key product_id).
    + rewrite <- Hid. now apply (filter_key producer_id).
Qed.

(** After an answered checkout, with unique product and producer ids and an
    order id that no order and no order item carried before, [getOrder] and
    [GET /api/orders/:id] for the user answer the order of that id, of the
    user, pending, with the delivery option of the request, and with one
    row for each cart item and no other (in an order that is
    PostgreSQL's): the product, the producer, the quantity and the unit
    price of the item. *)
Theorem getOrder_after_checkout (e : env) (u : string) (b : body)
  (d d' : db) (o : Order) :
  post_orders e (Some u) b d = (d', Ok o) ->
  NoDup (map product_id (products d)) ->
  NoDup (map producer_id (producers d)) ->
  ~ In (order_uuid e) (map order_id (orders d)) ->
  ~ In (order_uuid e) (map oi_orderId (orderItems d)) ->
  exists ow rows,
    getOrder (order_uuid e) d' = Some ow
    /\ get_order (Some u) (order_uuid e) d' = Json ow
    /\ order_id (the_order ow) = order_uuid e
    /\ io_userId (order_data (the_order ow)) = u
    /\ io_status (order_data (the_order ow)) = "pending"
    /\ io_deliveryOption (order_data (the_order ow)) = deliveryOption b
    /\ Permutation (items ow) rows
    /\ Forall2 row_of_item (getCartItems u d) rows.
Proof.
  intros Hok Hp Hr Hfresh Hfresh_items.
  destruct (post_orders_ok e u b d d' o Hok)
    as (ci & cis & fee & Hcart & _ & Ho & Hd').
  assert (Hid : order_id o = order_uuid e) by (subst o; reflexivity).
  assert (Hu : io_userId (order_data o) = u) by (subst o; reflexivity).
  assert (Hsound := getCartItems_sound u d). rewrite Hcart in Hsound.
  destruct (rows_of_new_items (item_uuid e) (order_id o) d (ci :: cis) 0 Hp Hr)
    as (rows & Hrows & Hf2).
  { eapply Forall_impl; [|exact Hsound]. simpl. intros i H. tauto. }
  exists (mkOrderWithItems o rows), rows.
  assert (Hget : getOrder (order_id o) d' = Some (mkOrderWithItems o rows)).
  { unfold getOrder. rewrite Hd'. simpl orders. rewrite filter_app.
    rewrite (proj2 (orders_of_id (order_id o) (orders d)))
      by (rewrite Hid; exact Hfresh).
    simpl. rewrite String.eqb_refl. do 2 f_equal.
    unfold order_rows. simpl. rewrite flat_map_app.
    rewrite CheckoutProperties.flat_map_nil.
    - exact Hrows.
    - intros oi Hoi. apply CheckoutProperties.flat_map_nil. intros p _.
      apply CheckoutProperties.flat_map_nil. intros r _.
      destruct (String.eqb_spec (oi_orderId oi) (order_id o)) as [Heq|_].
      + exfalso. apply Hfresh_items. rewrite <- Hid, <- Heq. now apply in_map.
      + now rewrite andb_false_r. }
  rewrite <- Hid.
  split; [exact Hget|].
  split.
  { unfold get_order. rewrite Hget. simpl. rewrite Hu.
    now rewrite String.eqb_refl. }
  simpl. split; [reflexivity|]. split; [exact Hu|].
  split; [subst o; reflexivity|]. split; [subst o; reflexivity|].
  split; [apply Permutation_refl | now rewrite Hcart].
Qed.

Lemma getOrder_after_checkout_witness :
  let r := post_orders (Sample.request None) (Some "ann") Sample.pickup
             Sample.shop in
  exists o,
    r = (fst r, Ok o)
    /\ NoDup (map product_id (products Sample.shop))
    /\ NoDup (map producer_id (producers Sample.shop))
    /\ ~ In (order_uuid (Sample.request None)) (map order_id (orders Sample.shop))
    /\ ~ In (order_uuid (Sample.request None))
           (map oi_orderId (orderItems Sample.shop))
    /\ exists ow rows,
         getOrder (order_uuid (Sample.request None)) (fst r) = Some ow
         /\ get_order (Some "ann") (order_uuid (Sample.request None)) (fst r)
            = Json ow
         /\ order_id (the_order ow) = order_uuid (Sample.request None)
         /\ io_userId (order_data (the_order ow)) = "ann"
         /\ io_status (order_data (the_order ow)) = "pending"
         /\ io_deliveryOption (order_data (the_order ow))
            = deliveryOption Sample.pickup
         /\ Permutation (items ow) rows
         /\ Forall2 row_of_item (getCartItems "ann" Sample.shop) rows.
Proof.
  assert (Hp : NoDup (map product_id (products Sample.shop))).
  { simpl. repeat constructor; simpl; intuition discriminate. }
  assert (Hr : NoDup (map producer_id (producers Sample.shop))).
  { simpl. repeat constructor; simpl; intuition discriminate. }
  eexists. split; [reflexivity|].
  split; [exact Hp|]. split; [exact Hr|].
  split; [simpl; tauto|]. split; [simpl; tauto|].
  apply (getOrder_after_checkout (Sample.request None) "ann" Sample.pickup
           Sample.shop _ _ eq_refl Hp Hr); simpl; tauto.
Defined.

(** An answered order is priced as the fee route prices its subtotal: the
    subtotal is that of the cart items, and [POST
    /api/orders/calculate-fees] on that subtotal and the delivery option
    of the order answers the delivery fee, the platform fee, the
    processing fee and the total stored with the order. *)
Theorem order_priced_as_previewed (e : env) (u : string) (b : body)
  (d d' : db) (o : Order) :
  post_orders e (Some u) b d = (d', Ok o) ->
  let data := order_data o in
  io_subtotal data = subtotal_of (getCartItems u d)
  /\ io_deliveryOption data = deliveryOption b
  /\ post_calculate_fees (Num (io_subtotal data)) (io_deliveryOption data)
     = Fees.Json
         (mkFeeCalculation (Num (io_subtotal data)) (io_deliveryFee data)
            (io_platformFee data) (io_processingFee data) (io_total data)).
Proof.
  intros Hok.
  destruct (post_orders_ok e u b d d' o Hok)
    as (ci & cis & fee & Hcart & Hfee & -> & _).
  simpl. rewrite Hcart. split; [reflexivity|]. split; [reflexivity|].
  now apply FeeProperties.post_calculate_fees_number.
Qed.

Lemma order_priced_as_previewed_witness :
  let r := post_orders (Sample.request None) (Some "ann") Sample.pickup
             Sample.shop in
  exists o,
    r = (fst r, Ok o)
    /\ let data := order_data o in
       io_subtotal data = subtotal_of (getCartItems "ann" Sample.shop)
       /\ io_deliveryOption data = deliveryOption Sample.pickup
       /\ post_calculate_fees (Num (io_subtotal data)) (io_deliveryOption data)
          = Fees.Json
              (mkFeeCalculation (Num (io_subtotal data)) (io_deliveryFee data)
                 (io_platformFee data) (io_processingFee data) (io_total data)).
Proof.
  eexists. split; [reflexivity|].
  apply (order_priced_as_previewed (Sample.request None) "ann" Sample.pickup
           Sample.shop _ _ eq_refl).
Defined.

(** A request on an empty cart, or with a delivery option that names a
    property of [Object.prototype], is answered 400 and changes nothing,
    whichever statement would fail. *)
Theorem unpriced_request_changes_nothing (e : env) (u : string) (b : body)
  (d : db) :
  getCartItems u d = [] \/ inherited (deliveryOption b) = true ->
  fst (post_orders e (Some u) b d) = d
  /\ exists m,
       snd (post_orders e (Some u) b d) = Checkout.Status400 m
       /\ (fault e = None ->
           m = "Cart is empty" \/ m = "total.toFixed is not a function").
Proof.
  intros H. unfold post_orders, try_post_orders, rejects.
  destruct (fault e) as [[ | | | ]|] eqn:Hfault; simpl;
    try (split; [reflexivity|]; eexists; split; [reflexivity|discriminate]).
  all: destruct (getCartItems u d) as [|ci cis]; simpl;
    try (split; [reflexivity|]; eexists; split; [reflexivity|]; intros _;
         now left).
  all: destruct H as [H|H]; [discriminate|];
    rewrite (FeeProperties.deliveryFeeOf_inherited _ H); simpl;
    split; [reflexivity|]; eexists; split; [reflexivity|]; intros _; try discriminate;
    now right.
Qed.

Lemma unpriced_request_changes_nothing_witness :
  (getCartItems "ann" Sample.shop = []
   \/ inherited (deliveryOption (mkBody "valueOf" None None)) = true)
  /\ fst (post_orders (Sample.request None) (Some "ann")
            (mkBody "valueOf" None None) Sample.shop) = Sample.shop
  /\ exists m,
       snd (post_orders (Sample.request None) (Some "ann")
              (mkBody "valueOf" None None) Sample.shop)
       = Checkout.Status400 m
       /\ (fault (Sample.request None) = None ->
           m = "Cart is empty" \/ m = "total.toFixed is not a function").
Proof.
  split; [right; reflexivity|].
  apply (unpriced_request_changes_nothing (Sample.request None) "ann"
           (mkBody "valueOf" None None) Sample.shop).
  right. reflexivity.
Defined.

End OrderRoundTrip.

(* ------------------------------------------------------------------ *)
(** ** Producers near a location *)

Module NearbyProperties.
Import JS Storage Search Producers.
#[local] Open Scope float_scope.

Section Postgres.
Variable ST_Distance : point -> point -> number.


End Postgres.

End NearbyProperties.

(* ------------------------------------------------------------------ *)
(** ** Search, filter by filter *)

Module MoreSearchProperties.
Import JS Storage Search Tags OrderProperties.
#[local] Open Scope float_scope.

Lemma filter_nil {A : Type} (f : A -> bool) (l : list A) :
  (forall a, In a l -> f a = false) -> filter f l = [].
Proof.
  induction l as [|a l IH]; simpl; intros H; [reflexivity|].
  rewrite (H a) by now left. apply IH. intros b Hb. apply H. now right.
Qed.

(** The one parameter of the tag condition starts with an apostrophe. *)
Lemma quoted_tags_quoted (t : string) (ts : list string) :
  quoted (quoted_tags (t :: ts)) = true.
Proof. unfold quoted_tags. simpl. now destruct (map _ ts). Qed.

Section Queries.
Variable ST_Distance : point -> point -> number.
Variable ILIKE : string -> string -> bool.

#[local] Abbreviation search := (searchProducts ST_Distance ILIKE).
#[local] Abbreviation chosen := (selected ST_Distance ILIKE).

(** A search throws exactly when its [lat && lng] is truthy; the rows it
    returns are the selected rows of the join. *)
Lemma search_cases (query : string) (lat lng radiusKm : option number)
  (category0 : option string) (tags0 : option (list string)) (d : db) :
  (given lat && given lng = true
   /\ search query lat lng radiusKm category0 tags0 d = Throw rejected)
  \/ (given lat && given lng = false
      /\ exists rows,
           search query lat lng radiusKm category0 tags0 d = Return rows
           /\ forall row,
                In row rows
                <-> In row (joined ST_Distance lat lng d)
                    /\ chosen query lat lng radiusKm category0 tags0 row = true).
Proof.
  unfold searchProducts, answer.
  destruct (given lat && given lng); [now left|right].
  split; [reflexivity|]. eexists. split; [reflexivity|].
  intros row. now rewrite in_orderBy, filter_In.
Qed.

Lemma in_joined (lat lng : option number) (d : db) (row : ProductWithProducer) :
  In row (joined ST_Distance lat lng d) ->
  In (product row) (products d)
  /\ In (producer row) (producers d)
  /\ producerId (product row) = producer_id (producer row)
  /\ distance row
     = if given lat && given lng
       then option_map (fun m => m / 1000)
              (metres ST_Distance (ST_MakePoint lng lat) (producer row))
       else Some 0.
Proof.
  unfold joined. intros H.
  apply in_flat_map in H as (p & Hp & H).
  apply in_flat_map in H as (r & Hr & H).
  destruct (String.eqb_spec (producerId p) (producer_id r)); [|contradiction].
  destruct H as [<- | []]. simpl. auto.
Qed.

(** A search returns rows exactly when its [lat && lng] is falsy.  Every
    row returned holds an available product of the table with its
    producer; when a category is given the product has that category; when
    a query is given the name of the product matches it, or its
    description, which is then not NULL. *)
Theorem search_results_pass_the_filters (query : string)
  (lat lng radiusKm : option number) (category0 : option string)
  (tags0 : option (list string)) (d : db) :
  match search query lat lng radiusKm category0 tags0 d with
  | Throw _ => given lat && given lng = true
  | Return rows =>
      given lat && given lng = false
      /\ Forall (fun row =>
                   In (product row) (products d)
                   /\ In (producer row) (producers d)
                   /\ producerId (product row) = producer_id (producer row)
                   /\ available (product row) = Some true
                   /\ (forall c, category0 = Some c -> c <> "" ->
                         category (product row) = c)
                   /\ (query <> "" ->
                         let pattern := ("%" ++ query ++ "%")%string in
                         ILIKE (name (product row)) pattern = true
                         \/ exists text,
                              description (product row) = Some text
                              /\ ILIKE text pattern = true))
           rows
  end.
Proof.
  destruct (search_cases query lat lng radiusKm category0 tags0 d)
    as [[Hg ->] | [Hg (rows & -> & Hin)]]; [exact Hg|].
  split; [exact Hg|].
  apply Forall_forall. intros row Hrow. apply Hin in Hrow as [Hj Hsel].
  destruct (in_joined lat lng d row Hj) as (Hp & Hr & Hid & _).
  unfold selected in Hsel.
  apply andb_true_iff in Hsel as [Hsel _].
  apply andb_true_iff in Hsel as [Hsel _].
  apply andb_true_iff in Hsel as [Hsel Hcat].
  apply andb_true_iff in Hsel as [Hav Hq].
  repeat (split; [assumption|]). split; [|split].
  - unfold is_available in Hav.
    destruct (available (product row)) as [[|]|]; congruence.
  - intros c -> Hc. unfold matches_category in Hcat.
    destruct c; [contradiction|]. now apply String.eqb_eq in Hcat.
  - intros Hquery. unfold matches_query in Hq.
    destruct query; [contradiction|].
    apply orb_true_iff in Hq as [Hq|Hq]; [now left|right].
    destruct (description (product row)) as [text|]; [eauto|discriminate].
Qed.

(** The tag condition compares the tags of a product with one text, the
    requested tags each between apostrophes and joined by commas: a search
    with tags returns only products that carry that text as a tag, and no
    row at all when no tag of the table starts with an apostrophe. *)
Theorem tag_search_needs_the_quoted_text (query : string)
  (lat lng radiusKm : option number) (category0 : option string)
  (t : string) (ts : list string) (d : db) :
  match search query lat lng radiusKm category0 (Some (t :: ts)) d with
  | Throw _ => given lat && given lng = true
  | Return rows =>
      Forall (fun row =>
                exists own,
                  tags (product row) = Some own
                  /\ In (quoted_tags (t :: ts)) own)
        rows
  end
  /\ ((forall p own,
         In p (products d) -> tags p = Some own ->
         Forall (fun tag => quoted tag = false) own) ->
      search query lat lng radiusKm category0 (Some (t :: ts)) d
      = if given lat && given lng then Throw rejected else Return []).
Proof.
  assert (Htag : forall row,
            chosen query lat lng radiusKm category0 (Some (t :: ts)) row = true ->
            exists own,
              tags (product row) = Some own /\ In (quoted_tags (t :: ts)) own).
  { intros row Hsel. unfold selected in Hsel.
    apply andb_true_iff in Hsel as [Hsel _].
    apply andb_true_iff in Hsel as [_ Htags].
    unfold matches_tags in Htags.
    destruct (tags (product row)) as [own|]; [|discriminate].
    exists own. split; [reflexivity|].
    apply existsb_exists in Htags as (tag & Hin & Heq).
    apply String.eqb_eq in Heq. now subst tag. }
  split.
  - destruct (search_cases query lat lng radiusKm category0 (Some (t :: ts)) d)
      as [[Hg ->] | [Hg (rows & -> & Hin)]]; [exact Hg|].
    apply Forall_forall. intros row Hrow. apply Hin in Hrow as [_ Hsel].
    now apply Htag.
  - intros Hplain.
    assert (Hnone : filter (chosen query lat lng radiusKm category0 (Some (t :: ts)))
                      (joined ST_Distance lat lng d) = []).
    { apply filter_nil. intros row Hj.
      destruct (chosen _ _ _ _ _ _ row) eqn:Hsel; [exfalso|reflexivity].
      destruct (Htag row Hsel) as (own & Hown & Hin).
      destruct (in_joined lat lng d row Hj) as (Hp & _).
      assert (Hq := proj1 (Forall_forall _ _) (Hplain _ _ Hp Hown) _ Hin).
      cbv beta in Hq. rewrite quoted_tags_quoted in Hq. discriminate. }
    unfold searchProducts, answer. rewrite Hnone.
    now destruct (given lat && given lng).
Qed.

End Queries.

End MoreSearchProperties.

(* ------------------------------------------------------------------ *)
(** ** Products *)

Module ProductProperties.
Import JS Storage Search Products JoinProperties OrderProperties.
#[local] Open Scope float_scope.

(** The rows of [getProduct] for one product. *)
Lemma getProduct_rows_of (id : string) (p : Product) (rs : list Producer) :
  flat_map (fun r =>
    if String.eqb (product_id p) id && String.eqb (producerId p) (producer_id r)
    then [(p, r)] else []) rs
  = if String.eqb (product_id p) id
    then map (pair p)
           (filter (fun r => String.eqb (producerId p) (producer_id r)) rs)
    else [].
Proof.
  destruct (String.eqb (product_id p) id); simpl.
  - apply (SearchProperties.flat_map_if
             (fun r => String.eqb (producerId p) (producer_id r)) (pair p)).
  - now apply CheckoutProperties.flat_map_nil.
Qed.

(** [GET /api/products/:id] answers a product of that id with the producer
    it names, and 404 exactly when no product of the id has a producer. *)
Theorem get_product_found_or_404 (id : string) (d : db) :
  match get_product id d with
  | Json (p, r) =>
      In p (products d) /\ In r (producers d)
      /\ product_id p = id /\ producerId p = producer_id r
  | Status404 _ =>
      forall p, In p (products d) -> product_id p = id -> producers_of d p = []
  end.
Proof.
  unfold get_product, getProduct.
  destruct (flat_map _ (products d)) as [|[p r] rows] eqn:Hrows; simpl.
  - intros p Hp Hid.
    assert (H : forall x, ~ In x (map (pair p) (producers_of d p))).
    { intros x Hx.
      assert (Hin : In x []).
      { rewrite <- Hrows. apply in_flat_map. exists p. split; [exact Hp|].
        rewrite getProduct_rows_of, Hid, String.eqb_refl. exact Hx. }
      exact Hin. }
    destruct (producers_of d p) as [|r rs]; [reflexivity|].
    exfalso. apply (H (p, r)). now left.
  - assert (Hin : In (p, r) ((p, r) :: rows)) by now left.
    rewrite <- Hrows in Hin.
    apply in_flat_map in Hin as (p' & Hp' & Hin).
    apply in_flat_map in Hin as (r' & Hr' & Hin).
    destruct (String.eqb_spec (product_id p') id); [|contradiction].
    destruct (String.eqb_spec (producerId p') (producer_id r')); [|contradiction].
    destruct Hin as [[= <- <-] | []]. auto.
Qed.

Section Queries.
Variable ST_Distance : point -> point -> number.
Variable ILIKE : string -> string -> bool.

(** A product created under a fresh id for a producer of the table is
    stored available, with tags that are not NULL, whatever the request
    says; [getProduct] and [GET /api/products/:id] answer it with its
    producer; the other products read as before; referential integrity is
    kept; and the search without filters returns it. *)
Theorem createProduct_round_trip (uuid : string) (now : Z) (i : InsertProduct)
  (d : db) (r : Producer) :
  ~ In uuid (map product_id (products d)) ->
  filter (fun r' => String.eqb (ip_producerId i) (producer_id r')) (producers d)
  = [r] ->
  let d' := fst (createProduct uuid now i d) in
  let p := snd (createProduct uuid now i d) in
  available p = Some true
  /\ tags p = Some (match ip_tags i with Some ts => ts | None => [] end)
  /\ getProduct uuid d' = Some (p, r)
  /\ get_product uuid d' = Json (p, r)
  /\ (forall id, id <> uuid -> getProduct id d' = getProduct id d)
  /\ (foreign_keys_hold d -> foreign_keys_hold d')
  /\ exists rows,
       searchProducts ST_Distance ILIKE "" None None None None None d'
       = Return rows
       /\ In (mkProductWithProducer p r (Some 0)) rows.
Proof.
  intros Hfresh Hr d' p.
  assert (Hold : forall id,
            flat_map (fun p0 =>
              flat_map (fun r0 =>
                if String.eqb (product_id p0) id
                   && String.eqb (producerId p0) (producer_id r0)
                then [(p0, r0)] else []) (producers d)) [p]
            = if String.eqb uuid id then [(p, r)] else []).
  { intros id. cbn [flat_map]. rewrite app_nil_r.
    rewrite (getProduct_rows_of id p (producers d)).
    change (product_id p) with uuid.
    change (producerId p) with (ip_producerId i).
    destruct (String.eqb uuid id); [|reflexivity]. now rewrite Hr. }
  assert (Hget : getProduct uuid d' = Some (p, r)).
  { unfold getProduct.
    change (products d') with (products d ++ [p]).
    change (producers d') with (producers d).
    rewrite flat_map_app.
    rewrite CheckoutProperties.flat_map_nil.
    - rewrite app_nil_l, (Hold uuid), String.eqb_refl. reflexivity.
    - intros p0 Hp0. rewrite getProduct_rows_of.
      destruct (String.eqb_spec (product_id p0) uuid) as [Heq|_]; [|reflexivity].
      exfalso. apply Hfresh. rewrite <- Heq. now apply in_map. }
  split; [reflexivity|]. split; [reflexivity|]. split; [exact Hget|].
  split; [unfold get_product; now rewrite Hget|].
  split; [|split].
  - intros id Hid. unfold getProduct.
    change (products d') with (products d ++ [p]).
    change (producers d') with (producers d).
    rewrite flat_map_app, (Hold id).
    destruct (String.eqb_spec uuid id) as [Heq|_]; [congruence|].
    now rewrite app_nil_r.
  - intros Hfk p0 Hp0. simpl in Hp0. apply in_app_or in Hp0 as [Hp0|[<-|[]]].
    + exact (Hfk p0 Hp0).
    + exists r. exact Hr.
  - destruct (MoreSearchProperties.search_cases ST_Distance ILIKE
                "" None None None None None d')
      as [[Hg _] | [_ (rows & Hrows & Hin)]]; [discriminate|].
    exists rows. split; [exact Hrows|]. apply Hin. split.
    + unfold joined. apply in_flat_map. exists p. split.
      * simpl. apply in_or_app. right. now left.
      * apply in_flat_map. exists r. split.
        -- simpl. assert (H : In r [r]) by now left.
           rewrite <- Hr in H. now apply filter_In in H.
        -- assert (H : In r [r]) by now left.
           rewrite <- Hr in H. apply filter_In in H as [_ H].
           simpl in *. rewrite H. now left.
    + reflexivity.
Qed.

End Queries.

Lemma createProduct_round_trip_witness :
  let i := mkInsertProduct "farm" "Honey" None "preserves" 850 None in
  ~ In "honey" (map product_id (products Sample.shop))
  /\ filter (fun r' => String.eqb (ip_producerId i) (producer_id r'))
       (producers Sample.shop) = [Sample.farm]
  /\ let d' := fst (createProduct "honey" 400 i Sample.shop) in
     let p := snd (createProduct "honey" 400 i Sample.shop) in
     available p = Some true
     /\ tags p = Some (match ip_tags i with Some ts => ts | None => [] end)
     /\ getProduct "honey" d' = Some (p, Sample.farm)
     /\ get_product "honey" d' = Json (p, Sample.farm)
     /\ (forall id, id <> "honey" -> getProduct id d' = getProduct id Sample.shop)
     /\ (foreign_keys_hold Sample.shop -> foreign_keys_hold d')
     /\ exists rows,
          searchProducts plane_distance ilike "" None None None None None d'
          = Return rows
          /\ In (mkProductWithProducer p Sample.farm (Some 0)) rows.
Proof.
  intros i.
  assert (Hfresh : ~ In "honey" (map product_id (products Sample.shop))).
  { simpl. intuition discriminate. }
  split; [exact Hfresh|]. split; [reflexivity|].
  apply (createProduct_round_trip plane_distance ilike "honey" 400 i Sample.shop
           Sample.farm Hfresh eq_refl).
Defined.

End ProductProperties.

(* ------------------------------------------------------------------ *)
(** ** The producer dashboard *)

Module DashboardProperties.
Import Dashboard.

(** Toggling a tag on tags without duplicates adds it at the end when it is
    absent and removes it when it is present, keeps the other tags in their
    order, and keeps the tags without duplicates; toggling an absent tag
    twice gives the tags back. *)
Theorem handleTagToggle_flips_the_tag (tag : string) (tags : list string) :
  NoDup tags ->
  NoDup (handleTagToggle tag tags)
  /\ (In tag (handleTagToggle tag tags) <-> ~ In tag tags)
  /\ filter (fun t => negb (String.eqb t tag)) (handleTagToggle tag tags)
     = filter (fun t => negb (String.eqb t tag)) tags
  /\ (~ In tag tags -> handleTagToggle tag (handleTagToggle tag tags) = tags)
  /\ Permutation (handleTagToggle tag (handleTagToggle tag tags)) tags.
Proof.
  intros Hnd.
  assert (Hnot : forall l, ~ In tag l ->
            filter (fun t => negb (String.eqb t tag)) l = l).
  { intros l. induction l as [|a l IH]; simpl; intros H; [reflexivity|].
    destruct (String.eqb_spec a tag) as [->|_]; [tauto|].
    simpl. f_equal. apply IH. tauto. }
  assert (Hremoved : ~ In tag (filter (fun t => negb (String.eqb t tag)) tags)).
  { intros H. apply filter_In in H as [_ H]. now rewrite String.eqb_refl in H. }
  assert (Habsent : forall l, ~ In tag l -> existsb (String.eqb tag) l = false).
  { intros l H. destruct (existsb (String.eqb tag) l) eqn:He; [|reflexivity].
    apply existsb_exists in He as (t & Ht & Heq). apply String.eqb_eq in Heq.
    now subst t. }
  destruct (existsb (String.eqb tag) tags) eqn:Hex.
  - assert (Hin : In tag tags).
    { apply existsb_exists in Hex as (t & Ht & Heq). apply String.eqb_eq in Heq.
      now subst t. }
    assert (Honce : handleTagToggle tag tags
                    = filter (fun t => negb (String.eqb t tag)) tags)
      by (unfold handleTagToggle; now rewrite Hex).
    assert (Htwice : handleTagToggle tag (filter (fun t => negb (String.eqb t tag)) tags)
                     = filter (fun t => negb (String.eqb t tag)) tags ++ [tag])
      by (unfold handleTagToggle; now rewrite (Habsent _ Hremoved)).
    rewrite !Honce, Htwice.
    split; [now apply NoDup_filter|]. split; [tauto|].
    split; [now apply Hnot|]. split; [tauto|].
    clear Hex Hremoved Honce Htwice.
    induction tags as [|a l IH]; simpl; [contradiction|].
    inversion Hnd as [|? ? Hnotin Hnd']; subst.
    destruct (String.eqb_spec a tag) as [->|Hne]; simpl.
    + rewrite (Hnot l Hnotin). symmetry. apply Permutation_cons_append.
    + destruct Hin as [Heq|Hin]; [contradiction|].
      constructor. now apply IH.
  - assert (Hin : ~ In tag tags).
    { intros H. assert (He : existsb (String.eqb tag) tags = true).
      { apply existsb_exists. exists tag. split; [exact H|apply String.eqb_refl]. }
      congruence. }
    assert (Honce : handleTagToggle tag tags = tags ++ [tag])
      by (unfold handleTagToggle; now rewrite Hex).
    assert (Htwice : handleTagToggle tag (tags ++ [tag]) = tags).
    { unfold handleTagToggle.
      assert (He : existsb (String.eqb tag) (tags ++ [tag]) = true).
      { apply existsb_exists. exists tag. split; [|apply String.eqb_refl].
        apply in_or_app. right. now left. }
      rewrite He, filter_app, (Hnot tags Hin). simpl.
      now rewrite String.eqb_refl, app_nil_r. }
    rewrite !Honce, Htwice.
    split.
    { apply (Permutation_NoDup (l := tag :: tags)).
      - apply Permutation_cons_append.
      - now constructor. }
    split.
    { split; [intros _; exact Hin|]. intros _. apply in_or_app. right. now left. }
    split.
    { rewrite filter_app. simpl. now rewrite String.eqb_refl, app_nil_r. }
    split; [reflexivity|reflexivity].
Qed.

Lemma handleTagToggle_flips_the_tag_witness :
  NoDup ["organic"; "fresh"]
  /\ NoDup (handleTagToggle "fresh" ["organic"; "fresh"])
  /\ (In "fresh" (handleTagToggle "fresh" ["organic"; "fresh"])
      <-> ~ In "fresh" ["organic"; "fresh"])
  /\ filter (fun t => negb (String.eqb t "fresh"))
       (handleTagToggle "fresh" ["organic"; "fresh"])
     = filter (fun t => negb (String.eqb t "fresh")) ["organic"; "fresh"]
  /\ (~ In "fresh" ["organic"; "fresh"] ->
      handleTagToggle "fresh" (handleTagToggle "fresh" ["organic"; "fresh"])
      = ["organic"; "fresh"])
  /\ Permutation
       (handleTagToggle "fresh" (handleTagToggle "fresh" ["organic"; "fresh"]))
       ["organic"; "fresh"].
Proof.
  assert (H : NoDup ["organic"; "fresh"]).
  { repeat constructor; simpl; intuition discriminate. }
  split; [exact H|].
  apply (handleTagToggle_flips_the_tag "fresh" ["organic"; "fresh"] H).
Defined.

End DashboardProperties.
